(** * CreateCard: check digits, CSV loading and the card pipeline

    A shallow embedding of [src/cpp/CreateCard.cpp].

    - [int] values are [Z] numbers kept in the 32-bit two's-complement range
      by [wrap_int], which is what the usual targets compute when a signed
      sum leaves the range; [%] on [int] is the truncating remainder
      [Z.rem].
    - [std::string] is [string]; a [char] is an [ascii] read as a signed or
      an unsigned byte according to [char_signed] (implementation-defined
      in C++, so every function that looks at a [char] value takes it).
    - The file system is a finite map from paths to the contents of the
      readable files, one entry per file, paths compared as written. What
      else the operating system decides (a path that opens although it is
      no file, a removal it refuses) is a field of [Os].
    - zint and libharu are collaborators outside the repository: what they
      compute is a field of [Libs]; the calls the program makes on them and
      the files it names are modelled as written in the source. *)

From Stdlib Require Import ZArith Ascii String List Lia DecimalString.
From stdpp Require Import base gmap strings list.

Local Open Scope Z_scope.

(** ** C++ [int] arithmetic *)

Module Int.

Definition INT_MAX : Z := 2147483647.
Definition INT_MIN : Z := -2147483648.

(** Reduction into the range of a 32-bit two's-complement [int]. *)
Definition wrap_int (z : Z) : Z := (z + 2147483648) mod 4294967296 - 2147483648.

Definition add (a b : Z) : Z := wrap_int (a + b).
Definition sub (a b : Z) : Z := wrap_int (a - b).
Definition mul (a b : Z) : Z := wrap_int (a * b).

(** [a % b] in C++ truncates towards zero: the sign follows the dividend. *)
Definition rem (a b : Z) : Z := wrap_int (Z.rem a b).

End Int.

(** ** [char] and [std::to_string] *)

(** The value of a [char] once promoted to [int]. *)
Definition char_to_int (char_signed : bool) (c : ascii) : Z :=
  let n := Z.of_nat (nat_of_ascii c) in
  if char_signed && (128 <=? n) then n - 256 else n.

(** [std::to_string(int)]: the decimal numeral, with a leading minus sign
    for negative values. *)
Definition to_string (z : Z) : string :=
  NilZero.string_of_int (Z.to_int z).

(** ** [calculate_check_digit] *)

(** The [for] loop of [calculate_check_digit], started at index [i] with the
    two accumulators; [number] is what is left of the string from [i] on. *)
Fixpoint check_digit_loop (char_signed : bool) (number : string) (i : nat)
    (sum_odd sum_even : Z) : Z * Z :=
  match number with
  | EmptyString => (sum_odd, sum_even)
  | String c rest =>
      let digit := Int.sub (char_to_int char_signed c) (char_to_int char_signed "0") in
      if Nat.even i
      then check_digit_loop char_signed rest (S i) (Int.add sum_odd digit) sum_even
      else check_digit_loop char_signed rest (S i) sum_odd (Int.add sum_even digit)
  end.

Definition calculate_check_digit (char_signed : bool) (number : string) : string :=
  let '(sum_odd, sum_even) := check_digit_loop char_signed number 0 0 0 in
  let check_digit :=
    Int.rem (Int.sub 10 (Int.rem (Int.add sum_odd (Int.mul 3 sum_even)) 10)) 10 in
  to_string check_digit.

(** *** The check digit as the specification words it

    Digits are indexed from 0; [spec_sum_odd] adds the digits at even
    indices and [spec_sum_even] those at odd indices, as unbounded integers,
    and [mod] is the mathematical remainder. *)

Definition digit_value (c : ascii) : Z := Z.of_nat (nat_of_ascii c) - 48.

Definition is_digit (c : ascii) : bool :=
  (48 <=? nat_of_ascii c)%nat && (nat_of_ascii c <=? 57)%nat.

Fixpoint is_digit_string (s : string) : bool :=
  match s with
  | EmptyString => true
  | String c rest => is_digit c && is_digit_string rest
  end.

Fixpoint sum_digits_at (p : nat -> bool) (i : nat) (s : string) : Z :=
  match s with
  | EmptyString => 0
  | String c rest => (if p i then digit_value c else 0) + sum_digits_at p (S i) rest
  end.

Definition spec_sum_odd (s : string) : Z := sum_digits_at Nat.even 0 s.
Definition spec_sum_even (s : string) : Z := sum_digits_at Nat.odd 0 s.

Definition spec_check_digit (s : string) : Z :=
  (10 - (spec_sum_odd s + 3 * spec_sum_even s) mod 10) mod 10.

(** The one-character decimal string of a digit [0..9]. *)
Definition digit_string (d : Z) : string :=
  String (ascii_of_nat (Z.to_nat (48 + d))) EmptyString.

(** The GS1 rule for the check digit of an EAN-13 prefix: counting from the
    right end of the prefix, the weights alternate 3, 1, 3, 1, ... *)
Fixpoint gs1_weighted_sum (weight : Z) (rev_digits : list ascii) : Z :=
  match rev_digits with
  | [] => 0
  | c :: rest => weight * digit_value c + gs1_weighted_sum (4 - weight) rest
  end.

Definition ean13_standard_check_digit (prefix : string) : Z :=
  (10 - gs1_weighted_sum 3 (rev (list_ascii_of_string prefix)) mod 10) mod 10.

(** A string of [2 * n] nines, built without unfolding [n]. *)
Definition nines (n : positive) : string :=
  Pos.iter (fun s => String "9" (String "9" s)) EmptyString n.

(** ** [load_data] *)

(** An input stream: the characters not yet read and the two state bits
    the code tests ([badbit] never arises when reading from memory or from a
    file that opened). *)
Record istream := { buf : string; eofbit : bool; failbit : bool }.

Definition open_stream (contents : string) : istream :=
  {| buf := contents; eofbit := false; failbit := false |}.

Definition good (s : istream) : bool := negb (eofbit s) && negb (failbit s).

(** Characters up to the first [delim]; the second component is what follows
    the delimiter, or [None] when the input ended first. *)
Fixpoint extract_until (delim : ascii) (s : string) : string * option string :=
  match s with
  | EmptyString => (EmptyString, None)
  | String c rest =>
      if Ascii.eqb c delim then (EmptyString, Some rest)
      else let '(taken, after) := extract_until delim rest in (String c taken, after)
  end.

(** [std::getline(is, str, delim)]. On a stream that is not [good] the
    sentry fails: [failbit] is set and [str] keeps its old value. Otherwise
    [str] is erased and filled up to the delimiter, which is consumed and
    not stored; reaching the end of input sets [eofbit], and [failbit] too
    when nothing at all was extracted. *)
Definition getline (s : istream) (str : string) (delim : ascii) : istream * string :=
  if good s then
    match extract_until delim (buf s) with
    | (taken, Some after) => ({| buf := after; eofbit := false; failbit := false |}, taken)
    | (taken, None) =>
        ({| buf := EmptyString; eofbit := true; failbit := String.eqb taken EmptyString |}, taken)
    end
  else ({| buf := buf s; eofbit := eofbit s; failbit := true |}, str).

(** [std::tuple<std::string, std::string, std::string>] *)
Definition record : Type := string * string * string.

Definition newline : ascii := "010"%char.
Definition comma : ascii := ","%char.

(** The body of the [while] loop: one line to one record. *)
Definition parse_line (line : string) : record :=
  let ss := open_stream line in
  let '(ss, name) := getline ss EmptyString comma in
  let '(ss, number) := getline ss EmptyString comma in
  let '(_, additional_info) := getline ss EmptyString comma in
  (name, number, additional_info).

(** [while (std::getline(file, line)) { ... data.emplace_back(...); }] *)
Fixpoint read_records (fuel : nat) (file : istream) (line : string) (data : list record)
    : option (list record) :=
  match fuel with
  | O => None
  | S fuel' =>
      let '(file', line') := getline file line newline in
      if failbit file' then Some data
      else read_records fuel' file' line' (data ++ [parse_line line'])
  end.

(** What bounds the number of iterations still to come: a stream that has
    failed gives none, one at end of input gives a last failing read. *)
Definition stream_measure (s : istream) : nat :=
  if failbit s then 0 else if eofbit s then 1 else 2 + String.length (buf s).

(** The exceptions that reach [main]: [std::runtime_error] with its
    message, and the [std::filesystem::filesystem_error] of a removal that
    the system refuses, with the path it was asked to remove. *)
Inductive exception : Type :=
  | runtime_error (what : string)
  | filesystem_error (path : string).

Inductive outcome (A : Type) : Type :=
  | Returned (a : A)
  | Threw (e : exception)
  | OutOfFuel.
Arguments Returned {A} a.
Arguments Threw {A} e.
Arguments OutOfFuel {A}.

(** The file system: path to contents. A path that is not in the map does
    not resolve to a readable file. *)
Abbreviation filesystem := (gmap string string).

(** [s.c_str()] handed to a C interface: the characters before the first
    NUL. The system calls behind [std::ifstream] and [fs::remove] see a path
    this way too. *)
Definition c_str (s : string) : string := fst (extract_until "000"%char s).

(** What the operating system decides beside the contents of the files:
    - [opens_without_file p]: [p] is no readable file and still opens for
      reading (a directory on Linux); every read from it fails;
    - [remove_refused p]: removing [p] fails with an error other than "no
      such file" (a name too long, a directory that is not empty, no
      permission), which makes [fs::remove] throw. *)
Record Os := {
  opens_without_file : string -> bool;
  remove_refused : string -> bool
}.

(** [std::ifstream file(csv_file)]: the stream, or [None] when
    [file.is_open()] is false. A path that opens without being a file gives
    a stream on which the first read fails. *)
Definition open_ifstream (os : Os) (files : filesystem) (path : string) : option istream :=
  match files !! c_str path with
  | Some contents => Some (open_stream contents)
  | None =>
      if opens_without_file os (c_str path)
      then Some {| buf := EmptyString; eofbit := false; failbit := true |}
      else None
  end.

Definition load_data (os : Os) (files : filesystem) (csv_file : string)
    : outcome (list record) :=
  match open_ifstream os files csv_file with
  | None => Threw (runtime_error ("CSV file not found: " +:+ csv_file))
  | Some file =>
      let fuel := (String.length (buf file) + 3)%nat in
      let '(file, line) := getline file EmptyString newline in (* Skip header *)
      match read_records fuel file line [] with
      | Some data => Returned data
      | None => OutOfFuel
      end
  end.

(** *** The loader as the specification words it *)

(** A text file made of the given lines, each ended by a newline. *)
Fixpoint unlines (ls : list string) : string :=
  match ls with
  | [] => EmptyString
  | l :: rest => l +:+ String newline (unlines rest)
  end.

Fixpoint contains (c : ascii) (s : string) : bool :=
  match s with
  | EmptyString => false
  | String c' rest => Ascii.eqb c' c || contains c rest
  end.

(** Splitting at the first two commas only: the third field is all that
    follows the second comma. *)
Definition split_first_two_commas (line : string) : record :=
  match extract_until comma line with
  | (name, None) => (name, EmptyString, EmptyString)
  | (name, Some after) =>
      match extract_until comma after with
      | (number, None) => (name, number, EmptyString)
      | (number, Some remainder) => (name, number, remainder)
      end
  end.

Definition FileNotFound (e : exception) : Prop :=
  exists path, e = runtime_error ("CSV file not found: " +:+ path).

(** ** The collaborators: zint and libharu *)

(** The fields of [struct zint_symbol] the program sets, and [outfile],
    which it never sets. *)
Record zint_symbol := {
  symbology : Z;
  input_mode : Z;
  option_1 : Z;
  outfile : string
}.

(** Constants of [zint.h]. *)
Definition BARCODE_CODE128 : Z := 20.
Definition BARCODE_EANX : Z := 13.
Definition DATA_MODE : Z := 0.

(** [ZBarcode_Create()]: a symbol with zint's defaults; the default output
    file name is [out.png]. *)
Definition ZBarcode_Create : zint_symbol :=
  {| symbology := BARCODE_CODE128; input_mode := DATA_MODE; option_1 := -1;
     outfile := "out.png" |}.

(** The calls made on the libharu document, in order. An image handle is
    the bytes it was loaded from, [None] for a null handle. *)
Inductive hpdf_call : Type :=
  | HPDF_SetCompressionMode
  | HPDF_UseUTFEncodings
  | HPDF_SetCurrentEncoder (encoding : string)
  | HPDF_GetFont (font_name encoding : string)
  | HPDF_AddPage
  | HPDF_Page_SetSize
  | HPDF_Page_BeginText
  | HPDF_Page_SetFontAndSize (size : Z)
  | HPDF_Page_TextOut (x y : Z) (text : string)
  | HPDF_Page_EndText
  | HPDF_LoadPngImageFromFile (filename : string)
  | HPDF_Page_DrawImage (image : option string) (x y width height : Z)
  | HPDF_SaveToFile (file_name : string)
  | HPDF_Free.

(** [error_handler], the callback given to [HPDF_New], writes the two error
    numbers to the error stream and returns: it neither throws nor stops the
    program, so it has no part in the control flow modelled here.

    The surroundings of a run: the operating system, and what the two
    libraries compute, which is theirs to decide:
    - the bytes [ZBarcode_Encode_and_Print] and the following
      [ZBarcode_Print] write for a symbol and a payload, [None] when the call
      fails and writes nothing;
    - whether the document and the font are obtained, whether a file decodes
      as a PNG image, and the bytes [HPDF_SaveToFile] writes for the calls
      made so far ([None]: nothing written). *)
Record Libs := {
  os : Os;
  ZBarcode_Encode_and_Print_output : zint_symbol -> string -> option string;
  ZBarcode_Print_output : zint_symbol -> string -> option string;
  HPDF_New_ok : bool;
  HPDF_GetFont_ok : string -> string -> bool;
  HPDF_LoadPng_ok : string -> bool;
  HPDF_SaveToFile_output : list hpdf_call -> option string
}.

(** Both zint printing calls write to the symbol's [outfile] and return a
    status: [true] for success. *)
Definition write_outfile (sym : zint_symbol) (output : option string) (fs : filesystem)
    : bool * filesystem :=
  match output with
  | Some bytes => (true, <[outfile sym := bytes]> fs)
  | None => (false, fs)
  end.

Definition ZBarcode_Encode_and_Print (libs : Libs) (sym : zint_symbol) (source : string)
    (fs : filesystem) : bool * filesystem :=
  write_outfile sym (ZBarcode_Encode_and_Print_output libs sym source) fs.

Definition ZBarcode_Print (libs : Libs) (sym : zint_symbol) (source : string)
    (fs : filesystem) : bool * filesystem :=
  write_outfile sym (ZBarcode_Print_output libs sym source) fs.

(** ** [generate_barcode] *)

(** The symbol [generate_barcode] configures. *)
Definition barcode_symbol : zint_symbol :=
  let my_symbol := ZBarcode_Create in
  {| symbology := BARCODE_EANX; input_mode := DATA_MODE; option_1 := 13;
     outfile := outfile my_symbol |}.

(** Both statuses are dropped, as in the source; [filename] is not used. *)
Definition generate_barcode (libs : Libs) (char_signed : bool) (number filename : string)
    (fs : filesystem) : filesystem :=
  let my_symbol := barcode_symbol in
  let full_number := number +:+ calculate_check_digit char_signed number in
  let '(_, fs) := ZBarcode_Encode_and_Print libs my_symbol (c_str full_number) fs in
  let '(_, fs) := ZBarcode_Print libs my_symbol (c_str full_number) fs in
  fs.


(** ** [create_pdf] and [main] *)

Record world := { files : filesystem; hpdf_calls : list hpdf_call }.

Definition load_png (libs : Libs) (fs : filesystem) (filename : string) : option string :=
  match fs !! filename with
  | Some bytes => if HPDF_LoadPng_ok libs bytes then Some bytes else None
  | None => None
  end.

(** The body of the [for] loop over the records. [fs::remove] deletes the
    file when it is there, does nothing when it is not, and throws when the
    system refuses the removal: the exception leaves the loop. *)
Definition create_pdf_loop_body (libs : Libs) (char_signed : bool) (w : world) (r : record)
    : outcome unit * world :=
  let '(name, number, additional_info) := r in
  let calls := hpdf_calls w ++
    [HPDF_Page_BeginText; HPDF_Page_SetFontAndSize 24;
     HPDF_Page_TextOut 50 750 (c_str name); HPDF_Page_EndText] in
  let barcode_filename := "barcode_" +:+ number +:+ ".png" in
  let fs := generate_barcode libs char_signed number barcode_filename (files w) in
  let barcode_image := load_png libs fs (c_str barcode_filename) in
  let calls := calls ++
    [HPDF_LoadPngImageFromFile (c_str barcode_filename);
     HPDF_Page_DrawImage barcode_image 50 700 100 50] in
  if remove_refused (os libs) (c_str barcode_filename) then
    (Threw (filesystem_error barcode_filename), {| files := fs; hpdf_calls := calls |})
  else
    (Returned tt, {| files := delete (c_str barcode_filename) fs; hpdf_calls := calls |}).

(** The [for] loop: the records in order, up to the first exception. *)
Fixpoint create_pdf_loop (libs : Libs) (char_signed : bool) (data : list record) (w : world)
    : outcome unit * world :=
  match data with
  | [] => (Returned tt, w)
  | r :: rest =>
      match create_pdf_loop_body libs char_signed w r with
      | (Returned _, w') => create_pdf_loop libs char_signed rest w'
      | (Threw e, w') => (Threw e, w')
      | (OutOfFuel, w') => (OutOfFuel, w')
      end
  end.

Definition create_pdf (libs : Libs) (char_signed : bool)
    (output_filename csv_file template_path font_path : string) (fs : filesystem)
    : outcome unit * world :=
  if negb (HPDF_New_ok libs) then
    (Threw (runtime_error "Failed to create PDF object"), {| files := fs; hpdf_calls := [] |})
  else
    let calls :=
      [HPDF_SetCompressionMode; HPDF_UseUTFEncodings; HPDF_SetCurrentEncoder "UTF-8";
       HPDF_GetFont (c_str font_path) "UTF-8"] in
    if negb (HPDF_GetFont_ok libs (c_str font_path) "UTF-8") then
      (Threw (runtime_error ("Failed to load font: " +:+ font_path)),
       {| files := fs; hpdf_calls := calls |})
    else
      match load_data (os libs) fs csv_file with
      | Threw e => (Threw e, {| files := fs; hpdf_calls := calls |})
      | OutOfFuel => (OutOfFuel, {| files := fs; hpdf_calls := calls |})
      | Returned data =>
          let calls := calls ++ [HPDF_AddPage; HPDF_Page_SetSize] in
          match create_pdf_loop libs char_signed data
                  {| files := fs; hpdf_calls := calls |} with
          | (Threw e, w) => (Threw e, w)
          | (OutOfFuel, w) => (OutOfFuel, w)
          | (Returned _, w) =>
              let fs :=
                match HPDF_SaveToFile_output libs (hpdf_calls w) with
                | Some bytes => <[c_str output_filename := bytes]> (files w)
                | None => files w
                end in
              (Returned tt,
               {| files := fs;
                  hpdf_calls :=
                    hpdf_calls w ++ [HPDF_SaveToFile (c_str output_filename); HPDF_Free] |})
          end
      end.

(** [main]: the exit status and the world it leaves. *)
Definition main (libs : Libs) (char_signed : bool) (fs : filesystem) : outcome Z * world :=
  let output_filename := "cards.pdf" in
  let csv_file := "data/name and numbers.csv" in
  let template_path := "data/vcard.face.png" in
  let font_path := "data/font.ttf" in
  match create_pdf libs char_signed output_filename csv_file template_path font_path fs with
  | (Returned _, w) => (Returned 0, w)
  | (Threw e, w) => (Returned 1, w)
  | (OutOfFuel, w) => (OutOfFuel, w)
  end.

(** The texts drawn on the page, in order. *)
Fixpoint text_outs (calls : list hpdf_call) : list string :=
  match calls with
  | [] => []
  | HPDF_Page_TextOut _ _ text :: rest => text :: text_outs rest
  | _ :: rest => text_outs rest
  end.

(** *** A sample installation

    The system has no directory in the way and refuses the removal of a
    name longer than 255 bytes, the limit of Linux file systems; zint accepts
    a payload of thirteen decimal digits and nothing else; libharu obtains
    document and font, decodes every file and serialises. *)
Definition sample_os : Os :=
  {| opens_without_file := fun _ => false;
     remove_refused := fun path => (255 <? String.length path)%nat |}.

(** The same system with a directory at [dir]. *)
Definition os_with_directory (dir : string) : Os :=
  {| opens_without_file := String.eqb dir;
     remove_refused := remove_refused sample_os |}.

Definition sample_zint_output (sym : zint_symbol) (source : string) : option string :=
  if is_digit_string source && (String.length source =? 13)%nat
  then Some ("PNG " +:+ source) else None.

Definition sample_libs : Libs :=
  {| os := sample_os;
     ZBarcode_Encode_and_Print_output := sample_zint_output;
     ZBarcode_Print_output := sample_zint_output;
     HPDF_New_ok := true;
     HPDF_GetFont_ok := fun _ _ => true;
     HPDF_LoadPng_ok := fun _ => true;
     HPDF_SaveToFile_output := fun _ => Some "%PDF" |}.

Definition csv_path : string := "data/name and numbers.csv".

Definition one_record_csv : string :=
  unlines ["name,number,info"; "Ann,123456789012,a"].

Definition three_record_csv : string :=
  unlines ["name,number,info"; "Ann,123456789012,a"; "Bob,12AB,b"; "Cid,400638133393,c"].

(** ** Measures used in the further properties *)

(** The weighted sum of the check digit rule: weight 1 at even indices,
    weight 3 at odd indices. *)
Definition weighted_sum (s : string) : Z := spec_sum_odd s + 3 * spec_sum_even s.

(** A full number passes the modulo-10 check. *)
Definition passes_mod10_check (s : string) : Prop := weighted_sum s mod 10 = 0.

Fixpoint count_char (c : ascii) (s : string) : nat :=
  match s with
  | EmptyString => 0
  | String c' rest => (if Ascii.eqb c' c then 1 else 0) + count_char c rest
  end.

(** The three fields written back with commas between them. *)
Definition join_fields (r : record) : string :=
  let '(name, number, additional_info) := r in
  name +:+ "," +:+ number +:+ "," +:+ additional_info.

(** The image handles drawn on the page, in order. *)
Fixpoint drawn_images (calls : list hpdf_call) : list (option string) :=
  match calls with
  | [] => []
  | HPDF_Page_DrawImage image _ _ _ _ :: rest => image :: drawn_images rest
  | _ :: rest => drawn_images rest
  end.

Fixpoint pages_added (calls : list hpdf_call) : nat :=
  match calls with
  | [] => 0
  | HPDF_AddPage :: rest => S (pages_added rest)
  | _ :: rest => pages_added rest
  end.

(** The calls that place something on the page do so at the coordinates the
    loop writes. *)
Definition at_fixed_place (c : hpdf_call) : bool :=
  match c with
  | HPDF_Page_TextOut x y _ => (x =? 50) && (y =? 750)
  | HPDF_Page_DrawImage _ x y width height =>
      (x =? 50) && (y =? 700) && (width =? 100) && (height =? 50)
  | HPDF_Page_SetFontAndSize size => size =? 24
  | _ => true
  end.

(** The libharu calls of one iteration when no image could be loaded. *)
Definition record_calls_without_image (r : record) : list hpdf_call :=
  let '(name, number, additional_info) := r in
  [HPDF_Page_BeginText; HPDF_Page_SetFontAndSize 24;
   HPDF_Page_TextOut 50 750 (c_str name); HPDF_Page_EndText;
   HPDF_LoadPngImageFromFile (c_str ("barcode_" +:+ number +:+ ".png"));
   HPDF_Page_DrawImage None 50 700 100 50].

(** Every character is below 128, where the two readings of [char] agree. *)
Fixpoint seven_bit (s : string) : bool :=
  match s with
  | EmptyString => true
  | String c rest => (nat_of_ascii c <? 128)%nat && seven_bit rest
  end.

(** A record whose fields hold neither a comma nor a newline. *)
Definition plain_field (s : string) : bool :=
  negb (contains comma s) && negb (contains newline s).

Definition plain_record (r : record) : bool :=
  let '(name, number, additional_info) := r in
  plain_field name && plain_field number && plain_field additional_info.

(** The removal at the end of a record's iteration is refused. *)
Definition removal_refused_for (libs : Libs) (r : record) : bool :=
  let '(name, number, additional_info) := r in
  remove_refused (os libs) (c_str ("barcode_" +:+ number +:+ ".png")).

(** * Properties *)

(** ** The model at work *)

Example model_samples :
  calculate_check_digit true "123456789012" = "8"
  /\ calculate_check_digit false "400638133393" = "1"
  /\ calculate_check_digit true "" = "0"
  /\ to_string (-12) = "-12"
  /\ parse_line "a,b,c,d" = ("a", "b", "c")
  /\ parse_line "a" = ("a", "", "")
  /\ load_data sample_os
       {[ "f" := "h" +:+ String newline ("x,1,y" +:+ String newline "z,2") ]} "f"
       = Returned [("x", "1", "y"); ("z", "2", "")].
Proof. repeat split; vm_compute; reflexivity. Qed.

Example main_sample :
  let '(status, w) := main sample_libs true {[ csv_path := three_record_csv ]} in
  status = Returned 0
  /\ text_outs (hpdf_calls w) = ["Ann"; "Bob"; "Cid"]
  /\ files w !! "cards.pdf" = Some "%PDF"
  /\ files w !! "out.png" = Some "PNG 4006381333931".
Proof. vm_compute. repeat split. Qed.

(** ** [int] arithmetic *)

Lemma wrap_int_id (z : Z) : Int.INT_MIN <= z <= Int.INT_MAX -> Int.wrap_int z = z.
Proof.
  unfold Int.INT_MIN, Int.INT_MAX, Int.wrap_int. intros Hz.
  rewrite Z.mod_small; lia.
Qed.

Lemma wrap_int_range (z : Z) : Int.INT_MIN <= Int.wrap_int z <= Int.INT_MAX.
Proof.
  unfold Int.INT_MIN, Int.INT_MAX, Int.wrap_int.
  pose proof (Z.mod_pos_bound (z + 2147483648) 4294967296). lia.
Qed.

Lemma wrap_int_add_l (a b : Z) : Int.wrap_int (Int.wrap_int a + b) = Int.wrap_int (a + b).
Proof.
  unfold Int.wrap_int. f_equal.
  replace ((a + 2147483648) mod 4294967296 - 2147483648 + b + 2147483648)
    with ((a + 2147483648) mod 4294967296 + b) by lia.
  rewrite Zplus_mod_idemp_l. f_equal. lia.
Qed.

Lemma wrap_int_idem (a : Z) : Int.wrap_int (Int.wrap_int a) = Int.wrap_int a.
Proof. apply wrap_int_id, wrap_int_range. Qed.

(** The last line of the arithmetic lands in [0..9] whatever the weighted
    sum is: the inner remainder lies in [-9..9], so [10 - r] lies in
    [1..19]. *)
Lemma double_rem_range (t : Z) :
  0 <= Int.rem (Int.sub 10 (Int.rem t 10)) 10 <= 9.
Proof.
  unfold Int.rem, Int.sub.
  assert (Hr : -9 <= Z.rem t 10 <= 9).
  { pose proof (Z.rem_bound_abs t 10). lia. }
  rewrite (wrap_int_id (Z.rem t 10)) by (unfold Int.INT_MIN, Int.INT_MAX; lia).
  rewrite (wrap_int_id (10 - Z.rem t 10)) by (unfold Int.INT_MIN, Int.INT_MAX; lia).
  pose proof (Z.rem_bound_pos (10 - Z.rem t 10) 10).
  rewrite wrap_int_id; unfold Int.INT_MIN, Int.INT_MAX; lia.
Qed.

(** ** Characters and numerals *)

Lemma nat_of_ascii_lt_256 (c : ascii) : (nat_of_ascii c < 256)%nat.
Proof. destruct c as [[] [] [] [] [] [] [] []]; vm_compute; lia. Qed.

Lemma char_minus_zero (sgn : bool) (c : ascii) :
  Int.sub (char_to_int sgn c) (char_to_int sgn "0") = char_to_int sgn c - 48.
Proof.
  assert (H0 : char_to_int sgn "0" = 48) by (destruct sgn; reflexivity).
  rewrite H0. unfold Int.sub. apply wrap_int_id.
  pose proof (nat_of_ascii_lt_256 c).
  unfold char_to_int, Int.INT_MIN, Int.INT_MAX.
  destruct (sgn && (128 <=? Z.of_nat (nat_of_ascii c))); lia.
Qed.

Lemma is_digit_bounds (c : ascii) :
  is_digit c = true <-> (48 <= nat_of_ascii c <= 57)%nat.
Proof.
  unfold is_digit. rewrite andb_true_iff, !Nat.leb_le. tauto.
Qed.

Lemma digit_char_to_int (sgn : bool) (c : ascii) :
  is_digit c = true -> char_to_int sgn c - 48 = digit_value c.
Proof.
  intros Hc%is_digit_bounds. unfold char_to_int, digit_value.
  destruct (128 <=? Z.of_nat (nat_of_ascii c)) eqn:E.
  - apply Z.leb_le in E. lia.
  - now rewrite andb_false_r.
Qed.

Lemma digit_value_range (c : ascii) : is_digit c = true -> 0 <= digit_value c <= 9.
Proof. intros Hc%is_digit_bounds. unfold digit_value. lia. Qed.

Lemma to_string_digit (d : Z) : 0 <= d <= 9 -> to_string d = digit_string d.
Proof.
  intros Hd.
  assert (Hcases : d = 0 \/ d = 1 \/ d = 2 \/ d = 3 \/ d = 4 \/ d = 5 \/ d = 6
                   \/ d = 7 \/ d = 8 \/ d = 9) by lia.
  repeat (destruct Hcases as [-> | Hcases]; [reflexivity|]).
  subst d. reflexivity.
Qed.

Lemma digit_string_is_digit (d : Z) :
  0 <= d <= 9 -> exists c, digit_string d = String c EmptyString /\ is_digit c = true.
Proof.
  intros Hd. exists (ascii_of_nat (Z.to_nat (48 + d))). split; [reflexivity|].
  apply is_digit_bounds. rewrite nat_ascii_embedding; lia.
Qed.

(** ** The loop of [calculate_check_digit] *)

Lemma sum_digits_at_nonneg (p : nat -> bool) (s : string) :
  is_digit_string s = true -> forall i, 0 <= sum_digits_at p i s.
Proof.
  induction s as [|c s IH]; simpl; intros Hs i; [lia|].
  apply andb_true_iff in Hs as [Hc Hs].
  pose proof (digit_value_range c Hc). specialize (IH Hs (S i)).
  destruct (p i); lia.
Qed.

(** On a digit string the accumulators hold the two sums of the
    specification, reduced to the [int] range. *)
Lemma check_digit_loop_digits (sgn : bool) (s : string) :
  is_digit_string s = true ->
  forall i sum_odd sum_even,
    Int.wrap_int sum_odd = sum_odd -> Int.wrap_int sum_even = sum_even ->
    check_digit_loop sgn s i sum_odd sum_even =
      (Int.wrap_int (sum_odd + sum_digits_at Nat.even i s),
       Int.wrap_int (sum_even + sum_digits_at Nat.odd i s)).
Proof.
  induction s as [|c s IH]; simpl; intros Hs i so se Hso Hse.
  - now rewrite !Z.add_0_r, Hso, Hse.
  - apply andb_true_iff in Hs as [Hc Hs].
    rewrite char_minus_zero, (digit_char_to_int sgn c Hc).
    change (Nat.odd i) with (negb (Nat.even i)).
    destruct (Nat.even i); simpl negb; cbv iota;
      rewrite IH by (auto; apply wrap_int_idem);
      unfold Int.add; rewrite wrap_int_add_l; do 2 f_equal; lia.
Qed.

(** The weighted sum of a digit string is at most 27 per character. *)
Lemma weighted_sum_le_length (s : string) :
  is_digit_string s = true ->
  forall i, sum_digits_at Nat.even i s + 3 * sum_digits_at Nat.odd i s
            <= 27 * Z.of_nat (String.length s).
Proof.
  induction s as [|c s IH]; simpl String.length; simpl sum_digits_at; intros Hs i; [lia|].
  simpl in Hs. apply andb_true_iff in Hs as [Hc Hs].
  pose proof (digit_value_range c Hc). specialize (IH Hs (S i)).
  change (Nat.odd i) with (negb (Nat.even i)).
  destruct (Nat.even i); simpl negb; cbv iota; lia.
Qed.

(** Whatever the characters are, the result is one decimal digit. *)
Lemma check_digit_one_decimal_character (sgn : bool) (s : string) :
  exists c, calculate_check_digit sgn s = String c EmptyString /\ is_digit c = true.
Proof.
  unfold calculate_check_digit.
  destruct (check_digit_loop sgn s 0 0 0) as [sum_odd sum_even].
  pose proof (double_rem_range (Int.add sum_odd (Int.mul 3 sum_even))) as Hd.
  rewrite (to_string_digit _ Hd). now apply digit_string_is_digit.
Qed.

(** The arithmetic of the source on the two specification sums. *)
Lemma calculate_check_digit_on_digits (sgn : bool) (s : string) :
  is_digit_string s = true ->
  calculate_check_digit sgn s =
    to_string
      (Int.rem
         (Int.sub 10
            (Int.rem
               (Int.add (Int.wrap_int (spec_sum_odd s))
                  (Int.mul 3 (Int.wrap_int (spec_sum_even s)))) 10)) 10).
Proof.
  intros Hs. unfold calculate_check_digit.
  rewrite (check_digit_loop_digits sgn s Hs) by reflexivity.
  cbv beta iota. rewrite !Z.add_0_l. reflexivity.
Qed.

(** *** Repeated nines *)

Lemma nines_succ (n : positive) :
  nines (Pos.succ n) = String "9" (String "9" (nines n)).
Proof. unfold nines. now rewrite Pos.iter_succ. Qed.

Lemma nines_one : nines 1 = "99".
Proof. reflexivity. Qed.

Lemma nines_is_digit_string (n : positive) : is_digit_string (nines n) = true.
Proof.
  induction n as [|n IH] using Pos.peano_ind.
  - reflexivity.
  - rewrite nines_succ. simpl is_digit_string. now rewrite IH.
Qed.

Lemma sum_digits_at_two (p : nat -> bool) (i : nat) (c1 c2 : ascii) (s : string) :
  sum_digits_at p i (String c1 (String c2 s)) =
    (if p i then digit_value c1 else 0)
    + ((if p (S i) then digit_value c2 else 0) + sum_digits_at p (S (S i)) s).
Proof. reflexivity. Qed.

Lemma nines_sum_even (n : positive) (i : nat) :
  sum_digits_at Nat.even i (nines n) = 9 * Z.pos n.
Proof.
  revert i. induction n as [|n IH] using Pos.peano_ind; intros i.
  - rewrite nines_one, sum_digits_at_two.
    change (digit_value "9") with 9. change (sum_digits_at _ _ "") with 0.
    rewrite Nat.even_succ, <- Nat.negb_even. destruct (Nat.even i); simpl negb; cbv iota; lia.
  - rewrite nines_succ, sum_digits_at_two, IH.
    change (digit_value "9") with 9.
    rewrite Nat.even_succ, <- Nat.negb_even. destruct (Nat.even i); simpl negb; cbv iota; lia.
Qed.

Lemma nines_sum_odd (n : positive) (i : nat) :
  sum_digits_at Nat.odd i (nines n) = 9 * Z.pos n.
Proof.
  revert i. induction n as [|n IH] using Pos.peano_ind; intros i.
  - rewrite nines_one, sum_digits_at_two.
    change (digit_value "9") with 9. change (sum_digits_at _ _ "") with 0.
    rewrite Nat.odd_succ, <- Nat.negb_odd. destruct (Nat.odd i); simpl negb; cbv iota; lia.
  - rewrite nines_succ, sum_digits_at_two, IH.
    change (digit_value "9") with 9.
    rewrite Nat.odd_succ, <- Nat.negb_odd. destruct (Nat.odd i); simpl negb; cbv iota; lia.
Qed.

(** ** The check-digit claims *)

(** C1 (as amended). For every string of decimal digits whose weighted sum
    [sum_odd + 3 * sum_even] does not exceed [INT_MAX], so that the [int]
    accumulators hold the true sums, [calculate_check_digit] returns the
    one-character decimal string of
    [(10 - (sum_odd + 3 * sum_even) mod 10) mod 10], where [sum_odd] adds the
    digits at even indices and [sum_even] those at odd indices. *)
Theorem calculate_check_digit_formula (sgn : bool) (s : string) :
  is_digit_string s = true ->
  spec_sum_odd s + 3 * spec_sum_even s <= Int.INT_MAX ->
  calculate_check_digit sgn s = digit_string (spec_check_digit s).
Proof.
  intros Hs Hmax. rewrite (calculate_check_digit_on_digits sgn s Hs).
  unfold spec_check_digit.
  pose proof (sum_digits_at_nonneg Nat.even s Hs 0) as Ha.
  pose proof (sum_digits_at_nonneg Nat.odd s Hs 0) as Hb.
  fold (spec_sum_odd s) in Ha. fold (spec_sum_even s) in Hb.
  set (a := spec_sum_odd s) in *. set (b := spec_sum_even s) in *. clearbody a b.
  unfold Int.INT_MAX in Hmax.
  assert (Hrange : forall z, 0 <= z <= a + 3 * b -> Int.wrap_int z = z).
  { intros z Hz. apply wrap_int_id. unfold Int.INT_MIN, Int.INT_MAX. lia. }
  unfold Int.add, Int.mul, Int.sub, Int.rem.
  rewrite (Hrange a); [|lia]. rewrite (Hrange b); [|lia].
  rewrite (Hrange (3 * b)); [|lia]. rewrite (Hrange (a + 3 * b)); [|lia].
  rewrite (Z.rem_mod_nonneg (a + 3 * b) 10) by lia.
  pose proof (Z.mod_pos_bound (a + 3 * b) 10) as Hm.
  set (m := (a + 3 * b) mod 10) in *. clearbody m.
  rewrite (wrap_int_id m) by (unfold Int.INT_MIN, Int.INT_MAX; lia).
  rewrite (wrap_int_id (10 - m)) by (unfold Int.INT_MIN, Int.INT_MAX; lia).
  rewrite (Z.rem_mod_nonneg (10 - m) 10) by lia.
  pose proof (Z.mod_pos_bound (10 - m) 10) as Hd.
  rewrite wrap_int_id by (unfold Int.INT_MIN, Int.INT_MAX; lia).
  apply to_string_digit. lia.
Qed.

Lemma calculate_check_digit_formula_witness :
  is_digit_string "400638133393" = true
  /\ spec_sum_odd "400638133393" + 3 * spec_sum_even "400638133393" <= Int.INT_MAX
  /\ calculate_check_digit true "400638133393"
     = digit_string (spec_check_digit "400638133393").
Proof.
  assert (Hs : is_digit_string "400638133393" = true) by reflexivity.
  assert (Hmax : spec_sum_odd "400638133393" + 3 * spec_sum_even "400638133393"
                 <= Int.INT_MAX) by (vm_compute; discriminate).
  exact (conj Hs (conj Hmax (calculate_check_digit_formula true _ Hs Hmax))).
Defined.

(** C1 fails as stated: on 119,304,648 nines the weighted sum is
    2,147,483,664, one step past [INT_MAX]; the [int] sum wraps to
    -2,147,483,632 and the function returns "2", while the formula over the
    true sums gives 6. *)
Lemma calculate_check_digit_overflow :
  is_digit_string (nines 59652324) = true
  /\ spec_sum_odd (nines 59652324) + 3 * spec_sum_even (nines 59652324) = 2147483664
  /\ digit_string (spec_check_digit (nines 59652324)) = "6"
  /\ calculate_check_digit true (nines 59652324) = "2"
  /\ calculate_check_digit false (nines 59652324) = "2".
Proof.
  assert (Ha : spec_sum_odd (nines 59652324) = 536870916)
    by (unfold spec_sum_odd; rewrite nines_sum_even; reflexivity).
  assert (Hb : spec_sum_even (nines 59652324) = 536870916)
    by (unfold spec_sum_even; rewrite nines_sum_odd; reflexivity).
  split; [apply nines_is_digit_string|].
  split; [rewrite Ha, Hb; reflexivity|].
  split; [unfold spec_check_digit; rewrite Ha, Hb; reflexivity|].
  split; (rewrite calculate_check_digit_on_digits by apply nines_is_digit_string);
    rewrite Ha, Hb; vm_compute; reflexivity.
Qed.

(** Every digit string of at most 79,536,431 characters has a weighted sum
    within the [int] range. *)
Lemma short_digit_string_in_bound (s : string) :
  is_digit_string s = true ->
  Z.of_nat (String.length s) <= 79536431 ->
  spec_sum_odd s + 3 * spec_sum_even s <= Int.INT_MAX.
Proof.
  intros Hs Hlen. pose proof (weighted_sum_le_length s Hs 0) as H.
  unfold spec_sum_odd, spec_sum_even, Int.INT_MAX. lia.
Qed.

(** C5. On "123456789012" the sums are 26 and 22, [(26 + 66) mod 10 = 2],
    and the function returns "8", the check digit the GS1 rule gives for
    that EAN-13 prefix. *)
Theorem calculate_check_digit_123456789012 (sgn : bool) :
  calculate_check_digit sgn "123456789012" = "8"
  /\ spec_sum_odd "123456789012" = 26
  /\ spec_sum_even "123456789012" = 22
  /\ (26 + 3 * 22) mod 10 = 2
  /\ ean13_standard_check_digit "123456789012" = 8.
Proof. destruct sgn; repeat split; vm_compute; reflexivity. Qed.

(** C8. For every string of decimal digits the result is a string of
    exactly one character, and that character is between "0" and "9". *)
Theorem calculate_check_digit_single_digit (sgn : bool) (s : string) :
  is_digit_string s = true ->
  String.length (calculate_check_digit sgn s) = 1%nat
  /\ exists c, calculate_check_digit sgn s = String c EmptyString /\ is_digit c = true.
Proof.
  intros _. destruct (check_digit_one_decimal_character sgn s) as [c [Hc Hdigit]].
  rewrite Hc. split; [reflexivity|]. now exists c.
Qed.

Lemma calculate_check_digit_single_digit_witness :
  is_digit_string "590123412345" = true
  /\ String.length (calculate_check_digit true "590123412345") = 1%nat
  /\ exists c, calculate_check_digit true "590123412345" = String c EmptyString
               /\ is_digit c = true.
Proof.
  assert (Hs : is_digit_string "590123412345" = true) by reflexivity.
  exact (conj Hs (calculate_check_digit_single_digit true _ Hs)).
Defined.

(** C10. [calculate_check_digit] is total: for every string, empty or with
    characters that are not digits, it returns a one-character string
    between "0" and "9"; a negative weighted sum too is mapped into [0..9]
    by the two remainders. *)
Theorem calculate_check_digit_total (sgn : bool) (s : string) :
  exists c, calculate_check_digit sgn s = String c EmptyString /\ is_digit c = true.
Proof.
  unfold calculate_check_digit.
  destruct (check_digit_loop sgn s 0 0 0) as [sum_odd sum_even].
  set (t := Int.add sum_odd (Int.mul 3 sum_even)).
  pose proof (double_rem_range t) as Hd.
  rewrite (to_string_digit _ Hd). now apply digit_string_is_digit.
Qed.

(** The empty string, a negative weighted sum ("!" counts as -15) and a
    byte above 127 under both readings of [char]. *)
Example calculate_check_digit_odd_inputs :
  calculate_check_digit true "" = "0"
  /\ check_digit_loop true "!" 0 0 0 = (-15, 0)
  /\ calculate_check_digit true "!" = "5"
  /\ calculate_check_digit true (String "255"%char "") = "9"
  /\ calculate_check_digit false (String "255"%char "") = "3".
Proof. repeat split; vm_compute; reflexivity. Qed.

(** ** Streams *)

Lemma extract_until_absent (d : ascii) (l : string) :
  contains d l = false -> extract_until d l = (l, None).
Proof.
  induction l as [|c l IH]; simpl; intros H; [reflexivity|].
  apply orb_false_iff in H as [Hc Hl]. rewrite Hc, (IH Hl). reflexivity.
Qed.

Lemma extract_until_first (d : ascii) (l rest : string) :
  contains d l = false -> extract_until d (l +:+ String d rest) = (l, Some rest).
Proof.
  induction l as [|c l IH]; simpl; intros H.
  - now rewrite Ascii.eqb_refl.
  - apply orb_false_iff in H as [Hc Hl]. rewrite Hc, (IH Hl). reflexivity.
Qed.

Lemma extract_until_shorter (d : ascii) (s taken after : string) :
  extract_until d s = (taken, Some after) -> (String.length after < String.length s)%nat.
Proof.
  revert taken. induction s as [|c s IH]; simpl; intros taken H; [discriminate|].
  destruct (Ascii.eqb c d).
  - injection H as _ <-. lia.
  - destruct (extract_until d s) as [t [a|]] eqn:E; [|discriminate].
    injection H as _ <-. specialize (IH t eq_refl). lia.
Qed.

Lemma getline_field (d : ascii) (l rest str : string) :
  contains d l = false ->
  getline (open_stream (l +:+ String d rest)) str d = (open_stream rest, l).
Proof.
  intros H. unfold getline, open_stream; simpl. now rewrite (extract_until_first d l rest H).
Qed.

Lemma getline_to_end (d : ascii) (l str : string) :
  contains d l = false ->
  getline (open_stream l) str d =
    ({| buf := EmptyString; eofbit := true; failbit := String.eqb l EmptyString |}, l).
Proof.
  intros H. unfold getline, open_stream; simpl. now rewrite (extract_until_absent d l H).
Qed.

Lemma getline_not_good (s : istream) (str : string) (d : ascii) :
  good s = false ->
  getline s str d = ({| buf := buf s; eofbit := eofbit s; failbit := true |}, str).
Proof. intros H. unfold getline. now rewrite H. Qed.

(** ** One line to one record *)

(** The code against the split at the first two commas: the first two fields
    agree, the third stops at the next comma. *)
Lemma parse_line_against_split (line : string) :
  parse_line line =
    (let '(name, number, remainder) := split_first_two_commas line in
     (name, number, fst (extract_until comma remainder))).
Proof.
  unfold parse_line, split_first_two_commas, getline, open_stream; simpl.
  destruct (extract_until comma line) as [name [after|]]; simpl; [|reflexivity].
  destruct (extract_until comma after) as [number [remainder|]]; simpl.
  - destruct (extract_until comma remainder) as [info [x|]]; reflexivity.
  - reflexivity.
Qed.

Lemma append_cons (c : ascii) (s t : string) : String c s +:+ t = String c (s +:+ t).
Proof. reflexivity. Qed.

Lemma append_empty_r (s : string) : s +:+ EmptyString = s.
Proof. induction s as [|c s IH]; [reflexivity|now rewrite append_cons, IH]. Qed.

Lemma append_assoc (a b c : string) : (a +:+ b) +:+ c = a +:+ (b +:+ c).
Proof. induction a as [|x a IH]; [reflexivity|now rewrite !append_cons, IH]. Qed.

Lemma parse_line_three_getlines (a b c : string) (tail : option string) :
  contains comma a = false -> contains comma b = false -> contains comma c = false ->
  parse_line
    (a +:+ String comma (b +:+ String comma
       (c +:+ match tail with Some rest => String comma rest | None => EmptyString end)))
  = (a, b, c).
Proof.
  intros Ha Hb Hc. unfold parse_line.
  rewrite (getline_field comma a _ _ Ha), (getline_field comma b _ _ Hb).
  destruct tail as [rest|].
  - now rewrite (getline_field comma c rest _ Hc).
  - rewrite append_empty_r.
    now rewrite (getline_to_end comma c _ Hc).
Qed.

(** C4 (as amended). A line is cut at its commas and the first three pieces
    are kept: the third field runs from the second comma to the third comma,
    or to the end of the line when there is none, and what follows a third
    comma is dropped; with fewer than two commas the missing trailing fields
    are empty strings. *)
Theorem parse_line_fields (a b c rest : string) :
  contains comma a = false -> contains comma b = false -> contains comma c = false ->
  parse_line a = (a, EmptyString, EmptyString)
  /\ parse_line (a +:+ "," +:+ b) = (a, b, EmptyString)
  /\ parse_line (a +:+ "," +:+ b +:+ "," +:+ c) = (a, b, c)
  /\ parse_line (a +:+ "," +:+ b +:+ "," +:+ c +:+ "," +:+ rest) = (a, b, c).
Proof.
  intros Ha Hb Hc. repeat split.
  - unfold parse_line. rewrite (getline_to_end comma a _ Ha).
    rewrite getline_not_good by reflexivity.
    rewrite getline_not_good by reflexivity. reflexivity.
  - unfold parse_line. change ("," +:+ b) with (String comma b).
    rewrite (getline_field comma a _ _ Ha), (getline_to_end comma b _ Hb).
    now rewrite getline_not_good by reflexivity.
  - pose proof (parse_line_three_getlines a b c None Ha Hb Hc) as H.
    rewrite append_empty_r in H. exact H.
  - exact (parse_line_three_getlines a b c (Some rest) Ha Hb Hc).
Qed.

Lemma parse_line_fields_witness :
  parse_line "Ann" = ("Ann", "", "")
  /\ parse_line ("Ann" +:+ "," +:+ "123456789012") = ("Ann", "123456789012", "")
  /\ parse_line ("Ann" +:+ "," +:+ "123456789012" +:+ "," +:+ "note")
     = ("Ann", "123456789012", "note")
  /\ parse_line ("Ann" +:+ "," +:+ "123456789012" +:+ "," +:+ "note" +:+ "," +:+ "x,y")
     = ("Ann", "123456789012", "note").
Proof.
  exact (parse_line_fields "Ann" "123456789012" "note" "x,y" eq_refl eq_refl eq_refl).
Defined.

(** C4 fails as stated: with a third comma in the line, the third field is
    not the whole remainder after the second comma. *)
Lemma parse_line_third_comma :
  split_first_two_commas "Ann,123456789012,note,extra"
    = ("Ann", "123456789012", "note,extra")
  /\ parse_line "Ann,123456789012,note,extra" = ("Ann", "123456789012", "note")
  /\ parse_line "Ann,123456789012,note,extra"
     <> split_first_two_commas "Ann,123456789012,note,extra".
Proof. repeat split. vm_compute. discriminate. Qed.

(** ** The reading loop *)

(** The [while] loop ends: every [getline] that does not fail shortens what
    is left to read. *)
Lemma read_records_total (fuel : nat) :
  forall file line data,
    (stream_measure file < fuel)%nat ->
    exists d, read_records fuel file line data = Some d.
Proof.
  induction fuel as [|fuel IH]; intros file line data Hm; [lia|].
  simpl. unfold getline. destruct file as [b e f]. unfold good, stream_measure in *. simpl in *.
  destruct f; simpl; [rewrite andb_false_r; simpl; eauto|].
  destruct e; simpl; [eauto|].
  destruct (extract_until newline b) as [taken [after|]] eqn:E; simpl.
  - apply IH. simpl. apply extract_until_shorter in E. lia.
  - destruct (String.eqb taken EmptyString); [eauto|]. apply IH. simpl. lia.
Qed.

Lemma read_records_fuel_mono (fuel : nat) :
  forall file line data d,
    read_records fuel file line data = Some d ->
    forall fuel', (fuel <= fuel')%nat -> read_records fuel' file line data = Some d.
Proof.
  induction fuel as [|fuel IH]; intros file line data d H fuel' Hle; [discriminate|].
  destruct fuel' as [|fuel']; [lia|]. simpl in *.
  destruct (getline file line newline) as [file' line'].
  destruct (failbit file'); [assumption|]. eapply IH; [eassumption|lia].
Qed.

Lemma load_data_never_out_of_fuel (os : Os) (fs : filesystem) (csv_file : string) :
  load_data os fs csv_file <> OutOfFuel.
Proof.
  unfold load_data. destruct (open_ifstream os fs csv_file) as [file0|]; [|discriminate].
  destruct (getline file0 EmptyString newline) as [file line] eqn:E.
  destruct (read_records_total (String.length (buf file0) + 3) file line []) as [d Hd].
  - unfold getline in E. destruct (good file0).
    + destruct (extract_until newline (buf file0)) as [taken [after|]] eqn:Ex;
        injection E as <- _; unfold stream_measure; simpl.
      * apply extract_until_shorter in Ex. lia.
      * destruct (String.eqb taken EmptyString); lia.
    + injection E as <- _. unfold stream_measure. simpl. lia.
  - now rewrite Hd.
Qed.

Lemma read_records_step (fuel : nat) (file : istream) (line : string) (data : list record) :
  read_records (S fuel) file line data =
    (let '(file', line') := getline file line newline in
     if failbit file' then Some data
     else read_records fuel file' line' (data ++ [parse_line line'])).
Proof. reflexivity. Qed.

(** Lines that hold no newline, each ended by one, come back one record per
    line, in order. *)
Lemma read_records_unlines (ls : list string) :
  Forall (fun l => contains newline l = false) ls ->
  forall line data,
    read_records (S (length ls)) (open_stream (unlines ls)) line data
    = Some (data ++ map parse_line ls).
Proof.
  induction 1 as [|l ls Hl _ IH]; intros line data.
  - simpl. now rewrite app_nil_r.
  - cbn [unlines length map]. rewrite read_records_step.
    rewrite (getline_field newline l _ _ Hl). cbn [open_stream failbit].
    rewrite IH, <- app_assoc. reflexivity.
Qed.

(** The same when the last line is not empty and has no newline after it. *)
Lemma read_records_unlines_open (ls : list string) (last : string) :
  Forall (fun l => contains newline l = false) ls ->
  contains newline last = false -> last <> EmptyString ->
  forall line data,
    read_records (S (S (length ls))) (open_stream (unlines ls +:+ last)) line data
    = Some (data ++ map parse_line (ls ++ [last])).
Proof.
  intros Hls Hlast Hne. induction Hls as [|l ls Hl _ IH]; intros line data.
  - cbn [unlines length map app]. change (EmptyString +:+ last) with last.
    rewrite read_records_step, (getline_to_end newline last _ Hlast). cbn [failbit].
    destruct (String.eqb_spec last EmptyString) as [->|_]; [congruence|].
    rewrite read_records_step, getline_not_good by reflexivity. reflexivity.
  - cbn [unlines length map app]. rewrite read_records_step.
    rewrite append_assoc, append_cons.
    rewrite (getline_field newline l _ _ Hl). cbn [open_stream failbit].
    rewrite IH, <- app_assoc. reflexivity.
Qed.

(** ** [load_data] on whole files *)

Lemma string_length_append (a b : string) :
  String.length (a +:+ b) = (String.length a + String.length b)%nat.
Proof. induction a as [|c a IH]; [reflexivity|]. rewrite append_cons. simpl. now rewrite IH. Qed.

Lemma length_le_unlines (ls : list string) : (length ls <= String.length (unlines ls))%nat.
Proof.
  induction ls as [|l ls IH]; cbn [unlines length]; [lia|].
  rewrite string_length_append. simpl. lia.
Qed.

Lemma open_ifstream_file (os : Os) (fs : filesystem) (path contents : string) :
  fs !! c_str path = Some contents ->
  open_ifstream os fs path = Some (open_stream contents).
Proof. intros H. unfold open_ifstream. now rewrite H. Qed.

(** A header line and then newline-ended lines: one record per line after
    the header, in file order. *)
Lemma load_data_unlines (os : Os) (fs : filesystem) (path h : string) (ls : list string) :
  contains newline h = false ->
  Forall (fun l => contains newline l = false) ls ->
  fs !! c_str path = Some (unlines (h :: ls)) ->
  load_data os fs path = Returned (map parse_line ls).
Proof.
  intros Hh Hls Hfile. unfold load_data. rewrite (open_ifstream_file os fs path _ Hfile).
  cbn [unlines open_stream buf]. fold (open_stream (h +:+ String newline (unlines ls))).
  rewrite (getline_field newline h _ _ Hh).
  rewrite (read_records_fuel_mono _ _ _ _ _ (read_records_unlines ls Hls h [])); [reflexivity|].
  rewrite string_length_append. simpl. pose proof (length_le_unlines ls). lia.
Qed.

Lemma load_data_unlines_open (os : Os) (fs : filesystem) (path h last : string)
    (ls : list string) :
  contains newline h = false ->
  Forall (fun l => contains newline l = false) ls ->
  contains newline last = false -> last <> EmptyString ->
  fs !! c_str path = Some (unlines (h :: ls) +:+ last) ->
  load_data os fs path = Returned (map parse_line (ls ++ [last])).
Proof.
  intros Hh Hls Hlast Hne Hfile. unfold load_data.
  rewrite (open_ifstream_file os fs path _ Hfile). cbn [unlines].
  rewrite append_assoc, append_cons. cbn [open_stream buf].
  fold (open_stream (h +:+ String newline (unlines ls +:+ last))).
  rewrite (getline_field newline h _ _ Hh).
  rewrite (read_records_fuel_mono _ _ _ _ _
             (read_records_unlines_open ls last Hls Hlast Hne h [])); [reflexivity|].
  rewrite !string_length_append. simpl. rewrite string_length_append.
  pose proof (length_le_unlines ls). lia.
Qed.

(** A file that is one line with no newline at all: nothing after the
    header. *)
Lemma load_data_header_only (os : Os) (fs : filesystem) (path h : string) :
  contains newline h = false ->
  fs !! c_str path = Some h ->
  load_data os fs path = Returned [].
Proof.
  intros Hh Hfile. unfold load_data. rewrite (open_ifstream_file os fs path _ Hfile).
  cbn [open_stream buf]. fold (open_stream h).
  rewrite (getline_to_end newline h _ Hh).
  replace (String.length h + 3)%nat with (S (String.length h + 2)) by lia.
  rewrite read_records_step, getline_not_good by reflexivity. reflexivity.
Qed.

(** C6. A file of a header line and three record lines yields exactly the
    three records, in file order, whether or not the last line ends with a
    newline; a file of the header line alone yields no record. The header is
    skipped whatever it holds. *)
Theorem load_data_header_and_three_records (os : Os) (fs : filesystem)
    (path h l1 l2 l3 : string) :
  contains newline h = false -> contains newline l1 = false ->
  contains newline l2 = false -> contains newline l3 = false ->
  (fs !! c_str path = Some (unlines [h; l1; l2; l3]) ->
   load_data os fs path = Returned [parse_line l1; parse_line l2; parse_line l3])
  /\ (l3 <> EmptyString -> fs !! c_str path = Some (unlines [h; l1; l2] +:+ l3) ->
      load_data os fs path = Returned [parse_line l1; parse_line l2; parse_line l3])
  /\ (fs !! c_str path = Some (unlines [h]) -> load_data os fs path = Returned [])
  /\ (fs !! c_str path = Some h -> load_data os fs path = Returned []).
Proof.
  intros Hh H1 H2 H3. repeat split.
  - intros Hfile. apply (load_data_unlines os fs path h [l1; l2; l3] Hh); auto.
  - intros Hne Hfile. apply (load_data_unlines_open os fs path h l3 [l1; l2] Hh); auto.
  - intros Hfile. apply (load_data_unlines os fs path h [] Hh); auto.
  - intros Hfile. apply (load_data_header_only os fs path h Hh Hfile).
Qed.

Lemma load_data_header_and_three_records_witness :
  load_data sample_os
    {[ csv_path := unlines ["name,number,info"; "Ann,123456789012,a";
                            "Bob,590123412345,b"; "Cid,400638133393,c"] ]} csv_path
  = Returned [("Ann", "123456789012", "a"); ("Bob", "590123412345", "b");
              ("Cid", "400638133393", "c")].
Proof.
  exact (proj1 (load_data_header_and_three_records sample_os
                  {[ csv_path := unlines ["name,number,info"; "Ann,123456789012,a";
                                          "Bob,590123412345,b"; "Cid,400638133393,c"] ]}
                  csv_path "name,number,info" "Ann,123456789012,a"
                  "Bob,590123412345,b" "Cid,400638133393,c"
                  eq_refl eq_refl eq_refl eq_refl) eq_refl).
Defined.

Lemma open_ifstream_none (os : Os) (fs : filesystem) (path : string) :
  open_ifstream os fs path = None
  <-> fs !! c_str path = None /\ opens_without_file os (c_str path) = false.
Proof.
  unfold open_ifstream. destruct (fs !! c_str path) as [contents|].
  - split; [discriminate|]. intros [H _]. discriminate.
  - destruct (opens_without_file os (c_str path)).
    + split; [discriminate|]. intros [_ H]. discriminate.
    + split; auto.
Qed.

Lemma load_data_missing (os : Os) (fs : filesystem) (path : string) :
  open_ifstream os fs path = None ->
  load_data os fs path = Threw (runtime_error ("CSV file not found: " +:+ path)).
Proof. intros H. unfold load_data. now rewrite H. Qed.

Lemma load_data_threw (os : Os) (fs : filesystem) (path : string) (e : exception) :
  load_data os fs path = Threw e ->
  open_ifstream os fs path = None /\ e = runtime_error ("CSV file not found: " +:+ path).
Proof.
  unfold load_data. destruct (open_ifstream os fs path) as [file|].
  - destruct (getline _ _ _) as [file' line].
    destruct (read_records _ _ _ _); discriminate.
  - intros [= <-]. auto.
Qed.

(** A path that opens without being a file: every read fails, no record. *)
Lemma load_data_opens_without_file (os : Os) (fs : filesystem) (path : string) :
  fs !! c_str path = None -> opens_without_file os (c_str path) = true ->
  load_data os fs path = Returned [].
Proof.
  intros Hnone Hopens. unfold load_data, open_ifstream. rewrite Hnone, Hopens. reflexivity.
Qed.

(** C7 (as amended). [load_data] throws exactly when the path, cut at its
    first NUL as the system sees it, does not open: it is no readable file
    and no other thing that opens. What it throws is the file-not-found
    error naming the path, and no record comes back with it. A file that
    opens always gives a list of records; a path that opens without being a
    readable file does not fail and gives the empty list. *)
Theorem load_data_file_not_found (os : Os) (fs : filesystem) (path : string) :
  (fs !! c_str path = None /\ opens_without_file os (c_str path) = false
   <-> exists e, load_data os fs path = Threw e)
  /\ (forall e, load_data os fs path = Threw e ->
        FileNotFound e /\ e = runtime_error ("CSV file not found: " +:+ path))
  /\ (fs !! c_str path = None -> opens_without_file os (c_str path) = false ->
      forall data, load_data os fs path <> Returned data)
  /\ (forall contents, fs !! c_str path = Some contents ->
        exists data, load_data os fs path = Returned data)
  /\ (fs !! c_str path = None -> opens_without_file os (c_str path) = true ->
      load_data os fs path = Returned []).
Proof.
  split; [split|split; [|split; [|split]]].
  - intros H%open_ifstream_none. eexists. now apply load_data_missing.
  - intros [e He]. apply open_ifstream_none. now apply load_data_threw in He.
  - intros e He. apply load_data_threw in He as [_ ->]. split; [now exists path|reflexivity].
  - intros Hnone Hdir data.
    rewrite (load_data_missing os fs path (proj2 (open_ifstream_none os fs path) (conj Hnone Hdir))).
    discriminate.
  - intros contents Hfile. destruct (load_data os fs path) as [data|e|] eqn:Hload.
    + now exists data.
    + apply load_data_threw in Hload as [Hnone%open_ifstream_none _].
      destruct Hnone. congruence.
    + now apply load_data_never_out_of_fuel in Hload.
  - apply load_data_opens_without_file.
Qed.

Lemma load_data_file_not_found_witness :
  (∅ : filesystem) !! c_str csv_path = None
  /\ (exists e, load_data sample_os ∅ csv_path = Threw e)
  /\ forall data, load_data sample_os ∅ csv_path <> Returned data.
Proof.
  assert (Hnone : (∅ : filesystem) !! c_str csv_path = None) by reflexivity.
  pose proof (load_data_file_not_found sample_os ∅ csv_path) as [Hiff [_ [Hno _]]].
  exact (conj Hnone (conj (proj1 Hiff (conj Hnone eq_refl)) (Hno Hnone eq_refl))).
Defined.

(** C7 fails as stated: [data] is a directory, so the path does not resolve
    to a readable file, and yet [load_data] does not fail: the stream opens,
    the first read fails and the result is the empty list. *)
Lemma load_data_on_a_directory :
  (∅ : filesystem) !! c_str "data" = None
  /\ opens_without_file (os_with_directory "data") (c_str "data") = true
  /\ load_data (os_with_directory "data") ∅ "data" = Returned []
  /\ load_data (os_with_directory "data") ∅ "data"
     <> Threw (runtime_error ("CSV file not found: " +:+ "data")).
Proof. repeat split. discriminate. Qed.

(** ** The barcode emitter *)

Lemma barcode_filename_not_outfile (number : string) :
  "barcode_" +:+ number +:+ ".png" <> outfile barcode_symbol.
Proof. intros H. rewrite !append_cons in H. discriminate H. Qed.

Lemma write_outfile_elsewhere (sym : zint_symbol) (output : option string)
    (fs : filesystem) (path : string) :
  path <> outfile sym -> snd (write_outfile sym output fs) !! path = fs !! path.
Proof.
  intros Hne. unfold write_outfile. destruct output as [bytes|]; simpl; [|reflexivity].
  now rewrite lookup_insert_ne.
Qed.

(** [generate_barcode] touches no path but the symbol's [outfile]. *)
Lemma generate_barcode_elsewhere (libs : Libs) (sgn : bool) (number filename : string)
    (fs : filesystem) (path : string) :
  path <> "out.png" -> generate_barcode libs sgn number filename fs !! path = fs !! path.
Proof.
  intros Hne. unfold generate_barcode, ZBarcode_Encode_and_Print, ZBarcode_Print.
  set (payload := c_str _).
  destruct (write_outfile barcode_symbol
              (ZBarcode_Encode_and_Print_output libs barcode_symbol payload) fs)
    as [st1 fs1] eqn:E1.
  destruct (write_outfile barcode_symbol
              (ZBarcode_Print_output libs barcode_symbol payload) fs1)
    as [st2 fs2] eqn:E2.
  pose proof (write_outfile_elsewhere barcode_symbol
                (ZBarcode_Print_output libs barcode_symbol payload) fs1 path Hne) as H2.
  pose proof (write_outfile_elsewhere barcode_symbol
                (ZBarcode_Encode_and_Print_output libs barcode_symbol payload) fs path Hne) as H1.
  rewrite E2 in H2. rewrite E1 in H1. simpl in *. congruence.
Qed.

(** What zint prints last is what is left at [out.png]. *)
Lemma generate_barcode_outfile (libs : Libs) (sgn : bool) (number filename : string)
    (fs : filesystem) (png : string) :
  ZBarcode_Print_output libs barcode_symbol
    (c_str (number +:+ calculate_check_digit sgn number)) = Some png ->
  generate_barcode libs sgn number filename fs !! "out.png" = Some png.
Proof.
  intros Hprint. unfold generate_barcode, ZBarcode_Encode_and_Print, ZBarcode_Print.
  rewrite Hprint.
  destruct (write_outfile barcode_symbol _ fs) as [st1 fs1]. simpl.
  apply lookup_insert_eq.
Qed.

(** C3, as the code has it. Whatever [filename] is passed, [generate_barcode]
    leaves that path as it was and the raster zint produces is at [out.png]:
    the parameter is never handed to zint. The payload is the number followed
    by its check digit. *)
Theorem generate_barcode_ignores_filename (libs : Libs) (sgn : bool)
    (number filename : string) (fs : filesystem) (png : string) :
  filename <> "out.png" ->
  ZBarcode_Print_output libs barcode_symbol
    (c_str (number +:+ calculate_check_digit sgn number)) = Some png ->
  generate_barcode libs sgn number filename fs !! filename = fs !! filename
  /\ generate_barcode libs sgn number filename fs !! "out.png" = Some png.
Proof.
  intros Hne Hprint. split.
  - now apply generate_barcode_elsewhere.
  - now apply generate_barcode_outfile.
Qed.

Lemma generate_barcode_ignores_filename_witness :
  generate_barcode sample_libs true "123456789012" "barcode_123456789012.png" ∅
    !! "barcode_123456789012.png" = None
  /\ generate_barcode sample_libs true "123456789012" "barcode_123456789012.png" ∅
       !! "out.png" = Some "PNG 1234567890128".
Proof.
  exact (generate_barcode_ignores_filename sample_libs true "123456789012"
           "barcode_123456789012.png" ∅ "PNG 1234567890128"
           ltac:(discriminate) eq_refl).
Defined.

(** ** The loop over the records *)

Lemma text_outs_app (a b : list hpdf_call) : text_outs (a ++ b) = text_outs a ++ text_outs b.
Proof.
  induction a as [|c a IH]; [reflexivity|].
  destruct c; simpl; rewrite IH; reflexivity.
Qed.

(** One iteration: the outcome is decided by the removal alone. *)
Lemma loop_body_outcome (libs : Libs) (sgn : bool) (w : world) (r : record) :
  fst (create_pdf_loop_body libs sgn w r)
  = if removal_refused_for libs r
    then Threw (filesystem_error ("barcode_" +:+ snd (fst r) +:+ ".png"))
    else Returned tt.
Proof.
  destruct r as [[name number] info]. unfold create_pdf_loop_body, removal_refused_for.
  cbn [fst snd]. now destruct (remove_refused _ _).
Qed.


(** The loop ends normally exactly when no removal is refused. *)
Lemma loop_outcome (libs : Libs) (sgn : bool) (data : list record) :
  forall w,
    (existsb (removal_refused_for libs) data = false
     -> fst (create_pdf_loop libs sgn data w) = Returned tt)
    /\ (existsb (removal_refused_for libs) data = true
        -> exists path, fst (create_pdf_loop libs sgn data w) = Threw (filesystem_error path)).
Proof.
  induction data as [|r data IH]; intros w.
  - simpl. split; [reflexivity|discriminate].
  - cbn [create_pdf_loop existsb].
    pose proof (loop_body_outcome libs sgn w r) as Hbody.
    destruct (create_pdf_loop_body libs sgn w r) as [o w']. cbn [fst] in Hbody.
    destruct (removal_refused_for libs r); subst o; cbn [orb].
    + split; [discriminate|]. intros _. eexists. reflexivity.
    + apply IH.
Qed.

Lemma loop_returned (libs : Libs) (sgn : bool) (data : list record) (w : world) :
  fst (create_pdf_loop libs sgn data w) = Returned tt
  <-> existsb (removal_refused_for libs) data = false.
Proof.
  destruct (loop_outcome libs sgn data w) as [Hok Hthrow]. split; [|exact Hok].
  intros Hret. destruct (existsb _ data); [|reflexivity].
  destruct (Hthrow eq_refl) as [path Hpath]. congruence.
Qed.



(** After a record is composited the raster is still at [out.png]: the file
    removed, if any, is the one named after the number. *)
Lemma loop_body_leaves_raster (libs : Libs) (sgn : bool) (w : world)
    (name number info png : string) :
  ZBarcode_Print_output libs barcode_symbol
    (c_str (number +:+ calculate_check_digit sgn number)) = Some png ->
  files (snd (create_pdf_loop_body libs sgn w (name, number, info))) !! "out.png" = Some png.
Proof.
  intros Hprint. unfold create_pdf_loop_body.
  destruct (remove_refused _ _); cbn [snd files].
  - now apply generate_barcode_outfile.
  - rewrite lookup_delete_ne.
    + now apply generate_barcode_outfile.
    + unfold c_str. rewrite append_cons. simpl extract_until.
      destruct (extract_until "000" _) as [taken after]. simpl. discriminate.
Qed.

(** ** The whole run *)

(** The run once document, font and records are there. *)
Lemma create_pdf_with_records (libs : Libs) (sgn : bool)
    (output_filename csv_file template_path font_path : string) (fs : filesystem)
    (data : list record) :
  HPDF_New_ok libs = true ->
  HPDF_GetFont_ok libs (c_str font_path) "UTF-8" = true ->
  load_data (os libs) fs csv_file = Returned data ->
  create_pdf libs sgn output_filename csv_file template_path font_path fs
  = match create_pdf_loop libs sgn data
            {| files := fs;
               hpdf_calls :=
                 [HPDF_SetCompressionMode; HPDF_UseUTFEncodings;
                  HPDF_SetCurrentEncoder "UTF-8"; HPDF_GetFont (c_str font_path) "UTF-8";
                  HPDF_AddPage; HPDF_Page_SetSize] |} with
    | (Threw e, w) => (Threw e, w)
    | (OutOfFuel, w) => (OutOfFuel, w)
    | (Returned _, w) =>
        (Returned tt,
         {| files :=
              match HPDF_SaveToFile_output libs (hpdf_calls w) with
              | Some bytes => <[c_str output_filename := bytes]> (files w)
              | None => files w
              end;
            hpdf_calls :=
              hpdf_calls w ++ [HPDF_SaveToFile (c_str output_filename); HPDF_Free] |})
    end.
Proof.
  intros Hnew Hfont Hload. unfold create_pdf. rewrite Hnew, Hfont, Hload. reflexivity.
Qed.




(** [main] on one record, in terms of the one iteration. *)
Lemma main_single_record (libs : Libs) (sgn : bool) (fs : filesystem) (r : record) :
  HPDF_New_ok libs = true ->
  HPDF_GetFont_ok libs "data/font.ttf" "UTF-8" = true ->
  load_data (os libs) fs csv_path = Returned [r] ->
  let w1 := snd (create_pdf_loop_body libs sgn
                   {| files := fs;
                      hpdf_calls :=
                        [HPDF_SetCompressionMode; HPDF_UseUTFEncodings;
                         HPDF_SetCurrentEncoder "UTF-8"; HPDF_GetFont "data/font.ttf" "UTF-8";
                         HPDF_AddPage; HPDF_Page_SetSize] |} r) in
  (removal_refused_for libs r = true ->
   fst (main libs sgn fs) = Returned 1 /\ files (snd (main libs sgn fs)) = files w1)
  /\ (removal_refused_for libs r = false ->
      fst (main libs sgn fs) = Returned 0
      /\ files (snd (main libs sgn fs))
         = match HPDF_SaveToFile_output libs (hpdf_calls w1) with
           | Some bytes => <["cards.pdf" := bytes]> (files w1)
           | None => files w1
           end).
Proof.
  intros Hnew Hfont Hload. cbv zeta. unfold main.
  pose proof (create_pdf_with_records libs sgn "cards.pdf" csv_path "data/vcard.face.png"
                "data/font.ttf" fs [r] Hnew Hfont Hload) as Hrun.
  unfold csv_path in Hrun. rewrite Hrun. clear Hrun. cbn [create_pdf_loop].
  change (c_str "data/font.ttf") with "data/font.ttf".
  change (c_str "cards.pdf") with "cards.pdf".
  set (w0 := {| files := fs; hpdf_calls := _ |}).
  pose proof (loop_body_outcome libs sgn w0 r) as Hbody.
  destruct (create_pdf_loop_body libs sgn w0 r) as [o w1]. cbn [fst snd] in *.
  destruct (removal_refused_for libs r); subst o; split; intros H; try discriminate;
    cbn [fst snd files]; auto.
Qed.

(** C9, as the code has it. On a single-record input, once document and
    font are obtained and zint has printed the symbol, the raster is still
    there at the end of the run, at [out.png]: the emitter left the path
    named after the number as it was, so the removal at the end of the
    iteration does not touch the raster. When that removal is not refused
    the exit status is 0 and the path named after the number holds no file;
    when it is refused the exit status is 1. *)
Theorem single_record_run_leaves_raster (libs : Libs) (sgn : bool) (fs : filesystem)
    (name number info png : string) :
  HPDF_New_ok libs = true ->
  HPDF_GetFont_ok libs "data/font.ttf" "UTF-8" = true ->
  load_data (os libs) fs csv_path = Returned [(name, number, info)] ->
  ZBarcode_Print_output libs barcode_symbol
    (c_str (number +:+ calculate_check_digit sgn number)) = Some png ->
  fst (main libs sgn fs)
  = Returned (if removal_refused_for libs (name, number, info) then 1 else 0)
  /\ files (snd (main libs sgn fs)) !! "out.png" = Some png
  /\ generate_barcode libs sgn number ("barcode_" +:+ number +:+ ".png") fs
       !! ("barcode_" +:+ number +:+ ".png")
     = fs !! ("barcode_" +:+ number +:+ ".png")
  /\ (removal_refused_for libs (name, number, info) = false ->
      files (snd (main libs sgn fs)) !! c_str ("barcode_" +:+ number +:+ ".png") = None).
Proof.
  intros Hnew Hfont Hload Hprint.
  destruct (main_single_record libs sgn fs (name, number, info) Hnew Hfont Hload)
    as [Hrefused Hremoved].
  set (w0 := {| files := fs; hpdf_calls := _ |}) in *.
  pose proof (loop_body_leaves_raster libs sgn w0 name number info png Hprint) as Hraster.
  assert (Hgone : removal_refused_for libs (name, number, info) = false ->
            files (snd (create_pdf_loop_body libs sgn w0 (name, number, info)))
              !! c_str ("barcode_" +:+ number +:+ ".png") = None).
  { unfold removal_refused_for, create_pdf_loop_body. intros ->. cbn [snd files].
    apply lookup_delete_eq. }
  assert (Hcards : "cards.pdf" <> c_str ("barcode_" +:+ number +:+ ".png")).
  { unfold c_str. rewrite append_cons. simpl extract_until.
    destruct (extract_until "000" _) as [taken after]. simpl. discriminate. }
  split; [|split; [|split]].
  - destruct (removal_refused_for libs (name, number, info)).
    + apply (Hrefused eq_refl).
    + apply (Hremoved eq_refl).
  - destruct (removal_refused_for libs (name, number, info)).
    + destruct (Hrefused eq_refl) as [_ ->]. exact Hraster.
    + destruct (Hremoved eq_refl) as [_ ->].
      destruct (HPDF_SaveToFile_output libs _) as [bytes|]; [|exact Hraster].
      rewrite lookup_insert_ne by discriminate. exact Hraster.
  - apply generate_barcode_elsewhere. apply barcode_filename_not_outfile.
  - intros Hok. destruct (Hremoved Hok) as [_ ->].
    destruct (HPDF_SaveToFile_output libs _) as [bytes|]; [|exact (Hgone Hok)].
    rewrite lookup_insert_ne by exact Hcards. exact (Hgone Hok).
Qed.

Lemma single_record_run_leaves_raster_witness :
  fst (main sample_libs true {[ csv_path := one_record_csv ]}) = Returned 0
  /\ files (snd (main sample_libs true {[ csv_path := one_record_csv ]})) !! "out.png"
     = Some "PNG 1234567890128"
  /\ generate_barcode sample_libs true "123456789012"
       ("barcode_" +:+ "123456789012" +:+ ".png") {[ csv_path := one_record_csv ]}
       !! ("barcode_" +:+ "123456789012" +:+ ".png")
     = ({[ csv_path := one_record_csv ]} : filesystem)
         !! ("barcode_" +:+ "123456789012" +:+ ".png")
  /\ files (snd (main sample_libs true {[ csv_path := one_record_csv ]}))
       !! ("barcode_" +:+ "123456789012" +:+ ".png") = None.
Proof.
  pose proof (single_record_run_leaves_raster sample_libs true
                {[ csv_path := one_record_csv ]} "Ann" "123456789012" "a"
                "PNG 1234567890128" eq_refl eq_refl eq_refl eq_refl)
    as (Hstatus & Hraster & Hemit & Hgone).
  exact (conj Hstatus (conj Hraster (conj Hemit (Hgone eq_refl)))).
Defined.

(** The same run, evaluated: the document is written, [out.png] is left
    behind, and the image handle drawn on the page is null. *)
Example single_record_run :
  fst (main sample_libs true {[ csv_path := one_record_csv ]}) = Returned 0
  /\ files (snd (main sample_libs true {[ csv_path := one_record_csv ]}))
     = {[ csv_path := one_record_csv; "cards.pdf" := "%PDF";
          "out.png" := "PNG 1234567890128" ]}
  /\ In (HPDF_Page_DrawImage None 50 700 100 50)
        (hpdf_calls (snd (main sample_libs true {[ csv_path := one_record_csv ]}))).
Proof.
  repeat split; try (vm_compute; reflexivity).
  vm_compute. tauto.
Qed.

(** * Further properties of the code *)

(** ** The check digit on digit strings *)

Lemma sum_digits_at_app (p : nat -> bool) (a b : string) :
  forall i,
    sum_digits_at p i (a +:+ b)
    = sum_digits_at p i a + sum_digits_at p (i + String.length a) b.
Proof.
  induction a as [|c a IH]; intros i.
  - simpl. now rewrite Nat.add_0_r.
  - rewrite append_cons. simpl sum_digits_at. simpl String.length.
    rewrite IH. replace (S i + String.length a)%nat with (i + S (String.length a))%nat by lia.
    lia.
Qed.

Lemma is_digit_string_app (a b : string) :
  is_digit_string (a +:+ b) = is_digit_string a && is_digit_string b.
Proof.
  induction a as [|c a IH]; [reflexivity|].
  rewrite append_cons. simpl. rewrite IH. now rewrite andb_assoc.
Qed.

Lemma weighted_sum_nonneg (s : string) : is_digit_string s = true -> 0 <= weighted_sum s.
Proof.
  intros Hs. unfold weighted_sum, spec_sum_odd, spec_sum_even.
  pose proof (sum_digits_at_nonneg Nat.even s Hs 0).
  pose proof (sum_digits_at_nonneg Nat.odd s Hs 0). lia.
Qed.

(** The weighted sum of [a], one more character and [b]. *)
Lemma weighted_sum_insert (a b : string) (c : ascii) :
  weighted_sum (a +:+ String c b)
  = weighted_sum a
    + (if Nat.even (String.length a) then 1 else 3) * digit_value c
    + (sum_digits_at Nat.even (S (String.length a)) b
       + 3 * sum_digits_at Nat.odd (S (String.length a)) b).
Proof.
  unfold weighted_sum, spec_sum_odd, spec_sum_even.
  rewrite !sum_digits_at_app. simpl sum_digits_at. simpl Nat.add.
  change (Nat.odd (String.length a)) with (negb (Nat.even (String.length a))).
  destruct (Nat.even (String.length a)); simpl negb; cbv iota; lia.
Qed.

(** Within the [int] range the result is the digit of the rule. *)
Lemma calculate_check_digit_in_range (sgn : bool) (s : string) :
  is_digit_string s = true -> weighted_sum s <= Int.INT_MAX ->
  calculate_check_digit sgn s = digit_string ((10 - weighted_sum s mod 10) mod 10).
Proof.
  intros Hs Hmax. rewrite (calculate_check_digit_on_digits sgn s Hs).
  pose proof (sum_digits_at_nonneg Nat.even s Hs 0) as Ha.
  pose proof (sum_digits_at_nonneg Nat.odd s Hs 0) as Hb.
  unfold weighted_sum, Int.INT_MAX in *.
  fold (spec_sum_odd s) in Ha. fold (spec_sum_even s) in Hb.
  set (a := spec_sum_odd s) in *. set (b := spec_sum_even s) in *. clearbody a b.
  assert (Hid : forall z, -10 <= z <= a + 3 * b -> Int.wrap_int z = z).
  { intros z Hz. apply wrap_int_id. unfold Int.INT_MIN, Int.INT_MAX. lia. }
  unfold Int.add, Int.mul, Int.sub, Int.rem.
  rewrite (Hid a); [|lia]. rewrite (Hid b); [|lia].
  rewrite (Hid (3 * b)); [|lia]. rewrite (Hid (a + 3 * b)); [|lia].
  rewrite (Z.rem_mod_nonneg (a + 3 * b) 10) by lia.
  pose proof (Z.mod_pos_bound (a + 3 * b) 10) as Hm.
  set (m := (a + 3 * b) mod 10) in *. clearbody m.
  rewrite (wrap_int_id m) by (unfold Int.INT_MIN, Int.INT_MAX; lia).
  rewrite (wrap_int_id (10 - m)) by (unfold Int.INT_MIN, Int.INT_MAX; lia).
  rewrite (Z.rem_mod_nonneg (10 - m) 10) by lia.
  pose proof (Z.mod_pos_bound (10 - m) 10) as Hd.
  rewrite wrap_int_id by (unfold Int.INT_MIN, Int.INT_MAX; lia).
  apply to_string_digit. lia.
Qed.

Lemma digit_value_of_digit_string (d : Z) :
  0 <= d <= 9 ->
  digit_string d = String (ascii_of_nat (Z.to_nat (48 + d))) EmptyString
  /\ digit_value (ascii_of_nat (Z.to_nat (48 + d))) = d
  /\ is_digit (ascii_of_nat (Z.to_nat (48 + d))) = true.
Proof.
  intros Hd. split; [reflexivity|]. split.
  - unfold digit_value. rewrite nat_ascii_embedding; lia.
  - apply is_digit_bounds. rewrite nat_ascii_embedding; lia.
Qed.

Lemma digit_string_injective (d d' : Z) :
  0 <= d <= 9 -> 0 <= d' <= 9 -> digit_string d = digit_string d' -> d = d'.
Proof.
  intros Hd Hd' [= H]. apply (f_equal nat_of_ascii) in H.
  rewrite !nat_ascii_embedding in H; lia.
Qed.

Lemma digit_value_injective (c c' : ascii) : digit_value c = digit_value c' -> c = c'.
Proof.
  unfold digit_value. intros H.
  rewrite <- (ascii_nat_embedding c), <- (ascii_nat_embedding c'). f_equal. lia.
Qed.

Lemma digit_string_has_no_nul (s : string) :
  is_digit_string s = true -> c_str s = s.
Proof.
  intros Hs. unfold c_str. rewrite extract_until_absent; [reflexivity|].
  induction s as [|c s IH]; [reflexivity|].
  simpl in Hs. apply andb_true_iff in Hs as [Hc Hs]. simpl. rewrite (IH Hs), orb_false_r.
  apply is_digit_bounds in Hc. apply Ascii.eqb_neq. intros ->.
  change (nat_of_ascii "000") with 0%nat in Hc. lia.
Qed.

(** X1. For a digit string of even length whose weighted sum fits in [int]
    (every 12-digit number), the number followed by its check digit is a
    digit string one character longer, it is what reaches zint unchanged, and
    its weighted sum is a multiple of 10. *)
Theorem full_number_passes_check (sgn : bool) (number : string) :
  is_digit_string number = true ->
  Nat.even (String.length number) = true ->
  weighted_sum number <= Int.INT_MAX ->
  is_digit_string (number +:+ calculate_check_digit sgn number) = true
  /\ String.length (number +:+ calculate_check_digit sgn number) = S (String.length number)
  /\ c_str (number +:+ calculate_check_digit sgn number)
     = number +:+ calculate_check_digit sgn number
  /\ passes_mod10_check (number +:+ calculate_check_digit sgn number).
Proof.
  intros Hs Heven Hmax.
  rewrite (calculate_check_digit_in_range sgn number Hs Hmax).
  pose proof (weighted_sum_nonneg number Hs) as Hw.
  assert (Hd : 0 <= (10 - weighted_sum number mod 10) mod 10 <= 9).
  { pose proof (Z.mod_pos_bound (10 - weighted_sum number mod 10) 10). lia. }
  set (d := (10 - weighted_sum number mod 10) mod 10) in *.
  destruct (digit_value_of_digit_string d Hd) as [Hstr [Hval Hdig]].
  assert (Hfull : is_digit_string (number +:+ digit_string d) = true).
  { rewrite is_digit_string_app, Hs, Hstr. simpl. now rewrite Hdig. }
  split; [exact Hfull|]. split; [|split].
  - rewrite string_length_append, Hstr. simpl. lia.
  - now apply digit_string_has_no_nul.
  - unfold passes_mod10_check. rewrite Hstr, weighted_sum_insert, Heven, Hval.
    simpl sum_digits_at. subst d.
    pose proof (Z.mod_pos_bound (weighted_sum number) 10).
    pose proof (Z.mod_pos_bound (10 - weighted_sum number mod 10) 10).
    set (w := weighted_sum number) in *. clearbody w.
    rewrite Z.mul_1_l, !Z.add_0_r.
    rewrite Z.add_mod by lia. rewrite Z.mod_mod by lia.
    destruct (Z.eq_dec (w mod 10) 0) as [E|E].
    + rewrite E. reflexivity.
    + rewrite (Z.mod_small (10 - w mod 10) 10) by lia.
      replace (w mod 10 + (10 - w mod 10)) with 10 by lia. reflexivity.
Qed.

Lemma full_number_passes_check_witness :
  is_digit_string ("400638133393" +:+ calculate_check_digit true "400638133393") = true
  /\ String.length ("400638133393" +:+ calculate_check_digit true "400638133393") = 13%nat
  /\ c_str ("400638133393" +:+ calculate_check_digit true "400638133393")
     = "400638133393" +:+ calculate_check_digit true "400638133393"
  /\ passes_mod10_check ("400638133393" +:+ calculate_check_digit true "400638133393").
Proof.
  exact (full_number_passes_check true "400638133393" eq_refl eq_refl
           ltac:(vm_compute; discriminate)).
Defined.

(** Two weighted sums that differ by a step of 1..9 times a weight 1 or 3,
    or by twice a step that is no multiple of 5, give different digits. *)
Lemma different_digits (w delta : Z) :
  delta mod 10 <> 0 ->
  (10 - w mod 10) mod 10 <> (10 - (w + delta) mod 10) mod 10.
Proof.
  intros Hdelta H.
  pose proof (Z.mod_pos_bound w 10). pose proof (Z.mod_pos_bound (w + delta) 10).
  pose proof (Z.div_mod w 10). pose proof (Z.div_mod (w + delta) 10).
  pose proof (Z.div_mod delta 10). pose proof (Z.mod_pos_bound delta 10).
  assert (Heq : w mod 10 = (w + delta) mod 10).
  { destruct (Z.eq_dec (w mod 10) 0) as [E|E];
      destruct (Z.eq_dec ((w + delta) mod 10) 0) as [E'|E'].
    - congruence.
    - rewrite E in H. rewrite (Z.mod_small (10 - (w + delta) mod 10)) in H by lia.
      change ((10 - 0) mod 10) with 0 in H. lia.
    - rewrite E' in H. rewrite (Z.mod_small (10 - w mod 10)) in H by lia.
      change ((10 - 0) mod 10) with 0 in H. lia.
    - rewrite (Z.mod_small (10 - w mod 10) 10) in H by lia.
      rewrite (Z.mod_small (10 - (w + delta) mod 10) 10) in H by lia. lia. }
  apply Hdelta.
  replace delta with ((w + delta) - w) by lia.
  rewrite Zminus_mod, <- Heq, Z.sub_diag. reflexivity.
Qed.

Lemma same_digits (w delta : Z) :
  delta mod 10 = 0 ->
  (10 - w mod 10) mod 10 = (10 - (w + delta) mod 10) mod 10.
Proof.
  intros Hdelta. rewrite (Z.add_mod w delta) by lia.
  rewrite Hdelta, Z.add_0_r, Z.mod_mod by lia. reflexivity.
Qed.

(** X2. A single wrong digit is always caught: two digit strings that differ
    in exactly one position (weighted sums within [int]) have different check
    digits. *)
Theorem single_digit_error_changes_check_digit (sgn : bool) (a b : string) (c c' : ascii) :
  is_digit_string a = true -> is_digit_string b = true ->
  is_digit c = true -> is_digit c' = true -> c <> c' ->
  weighted_sum (a +:+ String c b) <= Int.INT_MAX ->
  weighted_sum (a +:+ String c' b) <= Int.INT_MAX ->
  calculate_check_digit sgn (a +:+ String c b)
  <> calculate_check_digit sgn (a +:+ String c' b).
Proof.
  intros Ha Hb Hc Hc' Hne Hmax Hmax'.
  assert (Hs : is_digit_string (a +:+ String c b) = true)
    by (rewrite is_digit_string_app; simpl; now rewrite Ha, Hb, Hc).
  assert (Hs' : is_digit_string (a +:+ String c' b) = true)
    by (rewrite is_digit_string_app; simpl; now rewrite Ha, Hb, Hc').
  rewrite (calculate_check_digit_in_range sgn _ Hs Hmax),
          (calculate_check_digit_in_range sgn _ Hs' Hmax').
  intros Heq. apply digit_string_injective in Heq.
  2,3: (match goal with |- _ <= ?x mod 10 <= _ => pose proof (Z.mod_pos_bound x 10); lia end).
  revert Heq. rewrite (weighted_sum_insert a b c'), (weighted_sum_insert a b c).
  pose proof (digit_value_range c Hc) as Hv. pose proof (digit_value_range c' Hc') as Hv'.
  assert (Hdv : digit_value c <> digit_value c')
    by (intros E; now apply Hne, digit_value_injective).
  set (k := if Nat.even (String.length a) then 1 else 3).
  set (r := sum_digits_at Nat.even _ b + 3 * sum_digits_at Nat.odd _ b).
  replace (weighted_sum a + k * digit_value c' + r)
    with ((weighted_sum a + k * digit_value c + r) + k * (digit_value c' - digit_value c))
    by lia.
  apply different_digits.
  assert (Hcases : -9 <= digit_value c' - digit_value c <= 9
                   /\ digit_value c' - digit_value c <> 0) by lia.
  set (delta := digit_value c' - digit_value c) in *. clearbody delta.
  subst k. destruct (Nat.even (String.length a));
    assert (Hd : delta = -9 \/ delta = -8 \/ delta = -7 \/ delta = -6 \/ delta = -5
                 \/ delta = -4 \/ delta = -3 \/ delta = -2 \/ delta = -1 \/ delta = 1
                 \/ delta = 2 \/ delta = 3 \/ delta = 4 \/ delta = 5 \/ delta = 6
                 \/ delta = 7 \/ delta = 8 \/ delta = 9) by lia;
    repeat (destruct Hd as [-> | Hd]; [vm_compute; discriminate|]);
    subst delta; vm_compute; discriminate.
Qed.

Lemma single_digit_error_changes_check_digit_witness :
  calculate_check_digit true ("40063" +:+ String "8" "133393")
  <> calculate_check_digit true ("40063" +:+ String "3" "133393").
Proof.
  exact (single_digit_error_changes_check_digit true "40063" "133393" "8" "3"
           eq_refl eq_refl eq_refl eq_refl ltac:(discriminate)
           ltac:(vm_compute; discriminate) ltac:(vm_compute; discriminate)).
Defined.

Lemma twice_mod_10 (x : Z) :
  ((2 * x) mod 10 = 0 <-> x mod 5 = 0) /\ ((-2 * x) mod 10 = 0 <-> x mod 5 = 0).
Proof. repeat split; intros H; Z.to_euclidean_division_equations; lia. Qed.

Lemma sum_digits_at_cons (p : nat -> bool) (i : nat) (c : ascii) (s : string) :
  sum_digits_at p i (String c s)
  = (if p i then digit_value c else 0) + sum_digits_at p (S i) s.
Proof. reflexivity. Qed.

(** The weighted sums of two strings that differ by the swap of two
    neighbours differ by twice the difference of the two digits. *)
Lemma weighted_sum_swap (a b : string) (c d : ascii) :
  weighted_sum (a +:+ String d (String c b))
  = weighted_sum (a +:+ String c (String d b))
    + (if Nat.even (String.length a) then 2 else -2) * (digit_value c - digit_value d).
Proof.
  rewrite !weighted_sum_insert, !sum_digits_at_cons.
  rewrite Nat.even_succ, Nat.odd_succ, <- Nat.negb_even.
  destruct (Nat.even (String.length a)); simpl negb; cbv iota; lia.
Qed.

(** X3. On digit strings whose weighted sums fit in [int], swapping two
    neighbouring digits changes the check digit unless the two digits are
    equal or differ by 5: the check digit of the swapped string is the same
    exactly when the difference of the two digits is a multiple of 5. *)
Theorem adjacent_swap_and_check_digit (sgn : bool) (a b : string) (c d : ascii) :
  is_digit_string a = true -> is_digit_string b = true ->
  is_digit c = true -> is_digit d = true ->
  weighted_sum (a +:+ String c (String d b)) <= Int.INT_MAX ->
  weighted_sum (a +:+ String d (String c b)) <= Int.INT_MAX ->
  (calculate_check_digit sgn (a +:+ String c (String d b))
   = calculate_check_digit sgn (a +:+ String d (String c b))
   <-> (digit_value c - digit_value d) mod 5 = 0).
Proof.
  intros Ha Hb Hc Hd Hmax Hmax'.
  assert (Hs : is_digit_string (a +:+ String c (String d b)) = true)
    by (rewrite is_digit_string_app; simpl; now rewrite Ha, Hb, Hc, Hd).
  assert (Hs' : is_digit_string (a +:+ String d (String c b)) = true)
    by (rewrite is_digit_string_app; simpl; now rewrite Ha, Hb, Hc, Hd).
  rewrite (calculate_check_digit_in_range sgn _ Hs Hmax),
          (calculate_check_digit_in_range sgn _ Hs' Hmax').
  rewrite (weighted_sum_swap a b c d).
  set (w := weighted_sum (a +:+ String c (String d b))). clearbody w.
  set (x := digit_value c - digit_value d). clearbody x.
  set (delta := (if Nat.even (String.length a) then 2 else -2) * x).
  assert (Hdelta : delta mod 10 = 0 <-> x mod 5 = 0).
  { subst delta. destruct (Nat.even (String.length a)); apply twice_mod_10. }
  clearbody delta. split.
  - intros Heq. apply Hdelta. destruct (Z.eq_dec (delta mod 10) 0) as [E|E]; [exact E|].
    exfalso. apply (different_digits w delta E).
    apply digit_string_injective in Heq; [exact Heq| |].
    + pose proof (Z.mod_pos_bound (10 - w mod 10) 10). lia.
    + pose proof (Z.mod_pos_bound (10 - (w + delta) mod 10) 10). lia.
  - intros Hx. f_equal. apply same_digits. now apply Hdelta.
Qed.

Lemma adjacent_swap_and_check_digit_witness :
  (calculate_check_digit true ("4006" +:+ String "3" (String "8" "133393"))
   = calculate_check_digit true ("4006" +:+ String "8" (String "3" "133393"))
   <-> (digit_value "3" - digit_value "8") mod 5 = 0).
Proof.
  exact (adjacent_swap_and_check_digit true "4006" "133393" "3" "8"
           eq_refl eq_refl eq_refl eq_refl
           ltac:(vm_compute; discriminate) ltac:(vm_compute; discriminate)).
Defined.

(** ** The check digit and the GS1 rule *)

Lemma string_of_list_ascii_app (l l' : list ascii) :
  string_of_list_ascii (l ++ l') = string_of_list_ascii l +:+ string_of_list_ascii l'.
Proof. induction l as [|c l IH]; [reflexivity|]. simpl. now rewrite IH, append_cons. Qed.

Lemma length_string_of_list_ascii (l : list ascii) :
  String.length (string_of_list_ascii l) = length l.
Proof. induction l as [|c l IH]; [reflexivity|]. simpl. now rewrite IH. Qed.

Lemma gs1_weighted_sum_cons (w : Z) (c : ascii) (l : list ascii) :
  gs1_weighted_sum w (c :: l) = w * digit_value c + gs1_weighted_sum (4 - w) l.
Proof. reflexivity. Qed.

(** Read from the right with alternating weights [v], [u], ..., the digits
    get weight [u] at even and [v] at odd indices when the length is even,
    and the other way round when it is odd. *)
Lemma gs1_weighted_sum_rev (u v : Z) (l : list ascii) :
  u + v = 4 ->
  gs1_weighted_sum (if Nat.even (length l) then v else u) (rev l)
  = u * spec_sum_odd (string_of_list_ascii l) + v * spec_sum_even (string_of_list_ascii l).
Proof.
  intros Huv. induction l as [|c l IH] using rev_ind.
  - simpl. unfold spec_sum_odd, spec_sum_even. simpl. lia.
  - rewrite rev_unit, gs1_weighted_sum_cons, length_app. simpl length.
    rewrite Nat.add_1_r, Nat.even_succ, <- Nat.negb_even.
    rewrite string_of_list_ascii_app. simpl string_of_list_ascii.
    unfold spec_sum_odd, spec_sum_even in *. rewrite !sum_digits_at_app, !sum_digits_at_cons.
    simpl Nat.add. rewrite length_string_of_list_ascii.
    change (sum_digits_at _ _ EmptyString) with 0.
    change (Nat.odd (length l)) with (negb (Nat.even (length l))).
    destruct (Nat.even (length l)); simpl negb in *; cbv iota.
    + replace (4 - u) with v by lia. rewrite IH. lia.
    + replace (4 - v) with u by lia. rewrite IH. lia.
Qed.

Lemma ean13_standard_even_length (s : string) :
  Nat.even (String.length s) = true ->
  ean13_standard_check_digit s = (10 - weighted_sum s mod 10) mod 10.
Proof.
  intros Heven. unfold ean13_standard_check_digit, weighted_sum.
  pose proof (gs1_weighted_sum_rev 1 3 (list_ascii_of_string s) eq_refl) as H.
  rewrite string_of_list_ascii_of_string in H.
  rewrite <- (length_string_of_list_ascii (list_ascii_of_string s)) in H.
  rewrite string_of_list_ascii_of_string, Heven in H. rewrite H. do 3 f_equal. lia.
Qed.

Lemma ean13_standard_odd_length (s : string) :
  Nat.even (String.length s) = false ->
  ean13_standard_check_digit s
  = (10 - (weighted_sum s + 2 * (spec_sum_odd s - spec_sum_even s)) mod 10) mod 10.
Proof.
  intros Hodd. unfold ean13_standard_check_digit, weighted_sum.
  pose proof (gs1_weighted_sum_rev 3 1 (list_ascii_of_string s) eq_refl) as H.
  rewrite string_of_list_ascii_of_string in H.
  rewrite <- (length_string_of_list_ascii (list_ascii_of_string s)) in H.
  rewrite string_of_list_ascii_of_string, Hodd in H. rewrite H. do 3 f_equal. lia.
Qed.

(** X4. For every digit string of even length (every 12-digit prefix of an
    EAN-13 number) whose weighted sum fits in [int], the result is the check
    digit of the GS1 rule, which weights the digits 3, 1, 3, 1, ... from the
    right. *)
Theorem calculate_check_digit_is_gs1_on_even_length (sgn : bool) (s : string) :
  is_digit_string s = true ->
  Nat.even (String.length s) = true ->
  weighted_sum s <= Int.INT_MAX ->
  calculate_check_digit sgn s = digit_string (ean13_standard_check_digit s).
Proof.
  intros Hs Heven Hmax.
  rewrite (calculate_check_digit_in_range sgn s Hs Hmax).
  now rewrite (ean13_standard_even_length s Heven).
Qed.

Lemma calculate_check_digit_is_gs1_on_even_length_witness :
  calculate_check_digit true "590123412345"
  = digit_string (ean13_standard_check_digit "590123412345").
Proof.
  exact (calculate_check_digit_is_gs1_on_even_length true "590123412345" eq_refl eq_refl
           ltac:(vm_compute; discriminate)).
Defined.

(** X5. On a digit string of odd length (a 7-digit body of an EAN-8 number,
    an 11-digit body of a UPC-A number) whose weighted sum fits in [int], the
    weights fall on the wrong positions: the result is the GS1 check digit
    only when the sum of the digits at even indices and the sum of those at
    odd indices differ by a multiple of 5. *)
Theorem calculate_check_digit_and_gs1_on_odd_length (sgn : bool) (s : string) :
  is_digit_string s = true ->
  Nat.even (String.length s) = false ->
  weighted_sum s <= Int.INT_MAX ->
  (calculate_check_digit sgn s = digit_string (ean13_standard_check_digit s)
   <-> (spec_sum_odd s - spec_sum_even s) mod 5 = 0).
Proof.
  intros Hs Hodd Hmax.
  rewrite (calculate_check_digit_in_range sgn s Hs Hmax).
  rewrite (ean13_standard_odd_length s Hodd).
  set (w := weighted_sum s). clearbody w.
  set (x := spec_sum_odd s - spec_sum_even s). clearbody x.
  pose proof (proj1 (twice_mod_10 x)) as Hx. split.
  - intros Heq. apply Hx. destruct (Z.eq_dec ((2 * x) mod 10) 0) as [E|E]; [exact E|].
    exfalso. apply (different_digits w (2 * x) E).
    apply digit_string_injective in Heq; [exact Heq| |].
    + pose proof (Z.mod_pos_bound (10 - w mod 10) 10). lia.
    + pose proof (Z.mod_pos_bound (10 - (w + 2 * x) mod 10) 10). lia.
  - intros H. f_equal. apply same_digits. now apply Hx.
Qed.

Lemma calculate_check_digit_and_gs1_on_odd_length_witness :
  (calculate_check_digit true "7351353" = digit_string (ean13_standard_check_digit "7351353")
   <-> (spec_sum_odd "7351353" - spec_sum_even "7351353") mod 5 = 0)
  /\ calculate_check_digit true "7351353" = "5"
  /\ digit_string (ean13_standard_check_digit "7351353") = "7".
Proof.
  split; [|split; vm_compute; reflexivity].
  exact (calculate_check_digit_and_gs1_on_odd_length true "7351353" eq_refl eq_refl
           ltac:(vm_compute; discriminate)).
Defined.

(** ** The check digit and the signedness of [char] *)

Lemma char_to_int_seven_bit (c : ascii) :
  (nat_of_ascii c <? 128)%nat = true -> char_to_int true c = char_to_int false c.
Proof.
  intros H%Nat.ltb_lt. unfold char_to_int.
  destruct (128 <=? Z.of_nat (nat_of_ascii c)) eqn:E; [|reflexivity].
  apply Z.leb_le in E. lia.
Qed.

Lemma check_digit_loop_seven_bit (s : string) :
  seven_bit s = true ->
  forall i sum_odd sum_even,
    check_digit_loop true s i sum_odd sum_even = check_digit_loop false s i sum_odd sum_even.
Proof.
  induction s as [|c s IH]; intros Hs i so se; [reflexivity|].
  simpl in Hs. apply andb_true_iff in Hs as [Hc Hs]. simpl.
  rewrite (char_to_int_seven_bit c Hc).
  destruct (Nat.even i); now rewrite IH.
Qed.

(** X6. On a string of 7-bit characters the result does not depend on
    whether [char] is signed: the two readings can only disagree on a byte
    above 127. *)
Theorem calculate_check_digit_char_signedness (s : string) :
  seven_bit s = true ->
  calculate_check_digit true s = calculate_check_digit false s.
Proof.
  intros Hs. unfold calculate_check_digit. now rewrite (check_digit_loop_seven_bit s Hs).
Qed.

Lemma calculate_check_digit_char_signedness_witness :
  calculate_check_digit true "12AB" = calculate_check_digit false "12AB".
Proof. exact (calculate_check_digit_char_signedness "12AB" eq_refl). Defined.

(** ** More on lines and records *)

Lemma extract_until_spec (d : ascii) (s : string) :
  forall taken after,
    extract_until d s = (taken, after) ->
    contains d taken = false
    /\ match after with
       | Some rest => s = taken +:+ String d rest
       | None => s = taken
       end.
Proof.
  induction s as [|c s IH]; simpl; intros taken after H.
  - injection H as <- <-. auto.
  - destruct (Ascii.eqb c d) eqn:E.
    + injection H as <- <-. apply Ascii.eqb_eq in E as ->. auto.
    + destruct (extract_until d s) as [t a]. injection H as <- <-.
      destruct (IH t a eq_refl) as [Ht Hs]. split.
      * simpl. now rewrite E, Ht.
      * destruct a; subst s; reflexivity.
Qed.

Lemma extract_until_length (d : ascii) (s taken : string) (after : option string) :
  extract_until d s = (taken, after) ->
  (String.length taken
   + match after with Some rest => S (String.length rest) | None => 0 end
   = String.length s)%nat.
Proof.
  intros H. destruct (extract_until_spec d s taken after H) as [_ Hs].
  destruct after as [rest|]; subst s; [|lia].
  rewrite string_length_append. reflexivity.
Qed.

Lemma count_char_absent (d : ascii) (s : string) :
  contains d s = false -> count_char d s = 0%nat.
Proof.
  induction s as [|c s IH]; simpl; intros H; [reflexivity|].
  apply orb_false_iff in H as [Hc Hs]. now rewrite Hc, IH.
Qed.

Lemma count_char_present (d : ascii) (s : string) :
  contains d s = true -> (0 < count_char d s)%nat.
Proof.
  induction s as [|c s IH]; simpl; intros H; [discriminate|].
  destruct (Ascii.eqb c d); [lia|]. simpl in *. auto.
Qed.

Lemma count_char_app (d : ascii) (a b : string) :
  count_char d (a +:+ b) = (count_char d a + count_char d b)%nat.
Proof.
  induction a as [|c a IH]; [reflexivity|].
  rewrite append_cons. simpl. rewrite IH. lia.
Qed.

Lemma contains_count_zero (d : ascii) (s : string) :
  count_char d s = 0%nat -> contains d s = false.
Proof.
  intros H. destruct (contains d s) eqn:E; [|reflexivity].
  apply count_char_present in E. lia.
Qed.

(** X7. No field of a record holds a comma, and together the three fields
    are never longer than the line they were cut from. *)
Theorem parse_line_fields_hold_no_comma (line : string) :
  let '(name, number, additional_info) := parse_line line in
  contains comma name = false
  /\ contains comma number = false
  /\ contains comma additional_info = false
  /\ (String.length name + String.length number + String.length additional_info
      <= String.length line)%nat.
Proof.
  rewrite parse_line_against_split. unfold split_first_two_commas.
  destruct (extract_until comma line) as [name o1] eqn:E1.
  destruct (extract_until_spec comma line name o1 E1) as [Hname _].
  apply extract_until_length in E1.
  destruct o1 as [after|].
  - destruct (extract_until comma after) as [number o2] eqn:E2.
    destruct (extract_until_spec comma after number o2 E2) as [Hnumber _].
    apply extract_until_length in E2.
    destruct o2 as [remainder|].
    + destruct (extract_until comma remainder) as [info o3] eqn:E3.
      destruct (extract_until_spec comma remainder info o3 E3) as [Hinfo _].
      apply extract_until_length in E3. simpl fst.
      repeat split; auto. destruct o3; lia.
    + simpl. repeat split; auto. lia.
  - simpl. repeat split; auto. lia.
Qed.

(** X8. A line with exactly two commas loses nothing: the three fields
    written back with commas between them are the line. *)
Theorem parse_line_two_commas_round_trip (line : string) :
  count_char comma line = 2%nat ->
  join_fields (parse_line line) = line.
Proof.
  intros Hcount. rewrite parse_line_against_split. unfold split_first_two_commas.
  destruct (extract_until comma line) as [name o1] eqn:E1.
  destruct (extract_until_spec comma line name o1 E1) as [Hname Hline].
  destruct o1 as [after|].
  2:{ subst line. rewrite (count_char_absent _ _ Hname) in Hcount. discriminate. }
  rewrite Hline, count_char_app, (count_char_absent _ _ Hname) in Hcount.
  simpl in Hcount. rewrite ?Ascii.eqb_refl in Hcount.
  destruct (extract_until comma after) as [number o2] eqn:E2.
  destruct (extract_until_spec comma after number o2 E2) as [Hnumber Hafter].
  destruct o2 as [remainder|].
  2:{ subst after. rewrite (count_char_absent _ _ Hnumber) in Hcount. discriminate. }
  rewrite Hafter, count_char_app, (count_char_absent _ _ Hnumber) in Hcount.
  simpl in Hcount. rewrite ?Ascii.eqb_refl in Hcount.
  assert (Hrem : contains comma remainder = false) by (apply contains_count_zero; lia).
  rewrite (extract_until_absent comma remainder Hrem). simpl fst.
  unfold join_fields. subst line after. reflexivity.
Qed.

Lemma parse_line_two_commas_round_trip_witness :
  join_fields (parse_line " Ann Lee ,123456789012, note ") = " Ann Lee ,123456789012, note ".
Proof. exact (parse_line_two_commas_round_trip " Ann Lee ,123456789012, note " eq_refl). Defined.

(** X9. A file of a header line and any number of further lines, each ended
    by a newline, gives one record per line after the header, blank lines
    included, in file order; a last line without its newline counts when it
    is not empty. *)
Theorem load_data_one_record_per_line (os : Os) (fs : filesystem) (path h : string)
    (ls : list string) :
  contains newline h = false ->
  Forall (fun l => contains newline l = false) ls ->
  (fs !! c_str path = Some (unlines (h :: ls)) ->
   load_data os fs path = Returned (map parse_line ls))
  /\ (forall last,
        contains newline last = false -> last <> EmptyString ->
        fs !! c_str path = Some (unlines (h :: ls) +:+ last) ->
        load_data os fs path = Returned (map parse_line ls ++ [parse_line last])).
Proof.
  intros Hh Hls. split.
  - now apply load_data_unlines.
  - intros last Hlast Hne Hfile.
    rewrite (load_data_unlines_open os fs path h last ls Hh Hls Hlast Hne Hfile).
    now rewrite map_app.
Qed.

Lemma load_data_one_record_per_line_witness :
  load_data sample_os
    {[ csv_path := unlines ["name,number,info"; "Ann,123456789012,a"; "";
                            "Cid,400638133393"] ]} csv_path
  = Returned [("Ann", "123456789012", "a"); ("", "", ""); ("Cid", "400638133393", "")].
Proof.
  exact (proj1 (load_data_one_record_per_line sample_os
                  {[ csv_path := unlines ["name,number,info"; "Ann,123456789012,a"; "";
                                          "Cid,400638133393"] ]}
                  csv_path "name,number,info"
                  ["Ann,123456789012,a"; ""; "Cid,400638133393"] eq_refl
                  ltac:(repeat constructor)) eq_refl).
Defined.

(** ** What a run does to the files *)

Lemma c_str_barcode_filename_not_outfile (number : string) :
  c_str ("barcode_" +:+ number +:+ ".png") <> "out.png".
Proof.
  unfold c_str. rewrite append_cons. simpl extract_until.
  destruct (extract_until "000" _) as [taken after]. simpl. discriminate.
Qed.

(** The loop, one record at a time. *)
Lemma loop_cons (libs : Libs) (sgn : bool) (r : record) (data : list record) (w : world) :
  create_pdf_loop libs sgn (r :: data) w
  = if removal_refused_for libs r
    then (Threw (filesystem_error ("barcode_" +:+ snd (fst r) +:+ ".png")),
          snd (create_pdf_loop_body libs sgn w r))
    else create_pdf_loop libs sgn data (snd (create_pdf_loop_body libs sgn w r)).
Proof.
  cbn [create_pdf_loop]. pose proof (loop_body_outcome libs sgn w r) as Hbody.
  destruct (create_pdf_loop_body libs sgn w r) as [o w']. cbn [fst snd] in *.
  now destruct (removal_refused_for libs r); subst o.
Qed.

Lemma loop_app (libs : Libs) (sgn : bool) (data data' : list record) :
  existsb (removal_refused_for libs) data = false ->
  forall w,
    create_pdf_loop libs sgn (data ++ data') w
    = create_pdf_loop libs sgn data' (snd (create_pdf_loop libs sgn data w)).
Proof.
  induction data as [|r data IH]; intros Hok w; [reflexivity|].
  cbn [existsb] in Hok. apply orb_false_iff in Hok as [Hr Hdata].
  cbn [app]. rewrite !loop_cons, Hr. now apply IH.
Qed.

Lemma loop_body_files (libs : Libs) (sgn : bool) (w : world) (name number info path : string) :
  files (snd (create_pdf_loop_body libs sgn w (name, number, info))) !! path
  = if removal_refused_for libs (name, number, info)
    then generate_barcode libs sgn number ("barcode_" +:+ number +:+ ".png") (files w) !! path
    else if decide (c_str ("barcode_" +:+ number +:+ ".png") = path) then None
    else generate_barcode libs sgn number ("barcode_" +:+ number +:+ ".png") (files w) !! path.
Proof.
  unfold create_pdf_loop_body, removal_refused_for.
  destruct (remove_refused _ _); cbn [snd files]; [reflexivity|]. apply lookup_delete.
Qed.

Lemma loop_body_elsewhere (libs : Libs) (sgn : bool) (w : world) (name number info path : string) :
  path <> "out.png" -> path <> c_str ("barcode_" +:+ number +:+ ".png") ->
  files (snd (create_pdf_loop_body libs sgn w (name, number, info))) !! path = files w !! path.
Proof.
  intros Hout Hbar. rewrite loop_body_files.
  destruct (removal_refused_for _ _); [now apply generate_barcode_elsewhere|].
  destruct (decide _) as [E|_]; [congruence|]. now apply generate_barcode_elsewhere.
Qed.

Lemma loop_body_absent_stays (libs : Libs) (sgn : bool) (w : world) (r : record) (path : string) :
  path <> "out.png" -> files w !! path = None ->
  files (snd (create_pdf_loop_body libs sgn w r)) !! path = None.
Proof.
  intros Hout Hnone. destruct r as [[name number] info]. rewrite loop_body_files.
  destruct (removal_refused_for _ _); [now rewrite generate_barcode_elsewhere|].
  destruct (decide _); [reflexivity|]. now rewrite generate_barcode_elsewhere.
Qed.

Lemma loop_absent_stays (libs : Libs) (sgn : bool) (data : list record) (path : string) :
  path <> "out.png" ->
  forall w, files w !! path = None ->
    files (snd (create_pdf_loop libs sgn data w)) !! path = None.
Proof.
  intros Hout. induction data as [|r data IH]; intros w Hnone; [exact Hnone|].
  rewrite loop_cons. destruct (removal_refused_for libs r); cbn [snd].
  - now apply loop_body_absent_stays.
  - apply IH. now apply loop_body_absent_stays.
Qed.

Lemma loop_elsewhere (libs : Libs) (sgn : bool) (data : list record) (path : string) :
  path <> "out.png" ->
  (forall name number info,
     In (name, number, info) data -> path <> c_str ("barcode_" +:+ number +:+ ".png")) ->
  forall w, files (snd (create_pdf_loop libs sgn data w)) !! path = files w !! path.
Proof.
  intros Hout. induction data as [|[[name number] info] data IH]; intros Hbar w; [reflexivity|].
  assert (Hhere : files (snd (create_pdf_loop_body libs sgn w (name, number, info))) !! path
                  = files w !! path).
  { apply loop_body_elsewhere; [exact Hout|]. apply (Hbar name number info). now left. }
  rewrite loop_cons. destruct (removal_refused_for libs _); cbn [snd]; [exact Hhere|].
  rewrite IH by (intros n' num' i' Hin; apply (Hbar n' num' i'); now right). exact Hhere.
Qed.

Lemma loop_removes_barcode_files (libs : Libs) (sgn : bool) (data : list record)
    (name number info : string) :
  existsb (removal_refused_for libs) data = false ->
  In (name, number, info) data ->
  forall w,
    files (snd (create_pdf_loop libs sgn data w))
      !! c_str ("barcode_" +:+ number +:+ ".png") = None.
Proof.
  induction data as [|r data IH]; intros Hok Hin w; [destruct Hin|].
  cbn [existsb] in Hok. apply orb_false_iff in Hok as [Hr Hdata].
  rewrite loop_cons, Hr. destruct Hin as [->|Hin]; [|now apply IH].
  apply loop_absent_stays; [apply c_str_barcode_filename_not_outfile|].
  rewrite loop_body_files, Hr. destruct (decide _); [reflexivity|congruence].
Qed.

(** A run that does not get to the records leaves the files as they were. *)
Lemma create_pdf_without_records (libs : Libs) (sgn : bool)
    (output_filename csv_file template_path font_path : string) (fs : filesystem) :
  HPDF_New_ok libs = false \/ HPDF_GetFont_ok libs (c_str font_path) "UTF-8" = false
  \/ open_ifstream (os libs) fs csv_file = None ->
  exists e calls,
    create_pdf libs sgn output_filename csv_file template_path font_path fs
    = (Threw e, {| files := fs; hpdf_calls := calls |}).
Proof.
  intros H. unfold create_pdf.
  destruct (HPDF_New_ok libs); simpl negb; cbv iota; [|eauto].
  destruct (HPDF_GetFont_ok libs (c_str font_path) "UTF-8"); simpl negb; cbv iota; [|eauto].
  destruct H as [H|[H|H]]; try discriminate.
  rewrite (load_data_missing (os libs) fs csv_file H). eauto.
Qed.

(** The three ways a run can go. *)
Lemma create_pdf_cases (libs : Libs) (sgn : bool)
    (output_filename csv_file template_path font_path : string) (fs : filesystem) :
  (HPDF_New_ok libs = false \/ HPDF_GetFont_ok libs (c_str font_path) "UTF-8" = false
   \/ open_ifstream (os libs) fs csv_file = None)
  \/ (exists data,
        HPDF_New_ok libs = true /\ HPDF_GetFont_ok libs (c_str font_path) "UTF-8" = true
        /\ load_data (os libs) fs csv_file = Returned data).
Proof.
  destruct (HPDF_New_ok libs); [|auto].
  destruct (HPDF_GetFont_ok libs (c_str font_path) "UTF-8"); [|auto].
  destruct (load_data (os libs) fs csv_file) as [data|e|] eqn:Hload.
  - right. eauto.
  - apply load_data_threw in Hload as [Hnone _]. auto.
  - now apply load_data_never_out_of_fuel in Hload.
Qed.

(** The files after a run that got to the records: those the loop left,
    with the document added when the loop ended normally and libharu wrote
    it. *)
Lemma create_pdf_files_lookup (libs : Libs) (sgn : bool)
    (output_filename csv_file template_path font_path : string) (fs : filesystem)
    (data : list record) (path : string) :
  HPDF_New_ok libs = true ->
  HPDF_GetFont_ok libs (c_str font_path) "UTF-8" = true ->
  load_data (os libs) fs csv_file = Returned data ->
  path <> c_str output_filename ->
  files (snd (create_pdf libs sgn output_filename csv_file template_path font_path fs)) !! path
  = files (snd (create_pdf_loop libs sgn data
                  {| files := fs;
                     hpdf_calls :=
                       [HPDF_SetCompressionMode; HPDF_UseUTFEncodings;
                        HPDF_SetCurrentEncoder "UTF-8"; HPDF_GetFont (c_str font_path) "UTF-8";
                        HPDF_AddPage; HPDF_Page_SetSize] |})) !! path.
Proof.
  intros Hnew Hfont Hload Hdoc.
  rewrite (create_pdf_with_records libs sgn output_filename csv_file template_path font_path
             fs data Hnew Hfont Hload).
  destruct (create_pdf_loop libs sgn data _) as [[[]|e|] w]; cbn [snd files]; try reflexivity.
  destruct (HPDF_SaveToFile_output libs _) as [bytes|]; [|reflexivity].
  now rewrite lookup_insert_ne by congruence.
Qed.

(** X10. [create_pdf] changes no file but [out.png], the output file and the
    files named [barcode_<number>.png] (as the system sees the name, cut at a
    NUL) after the numbers of the records: every other path holds after the
    run what it held before, however the run ends. *)
Theorem create_pdf_leaves_other_files (libs : Libs) (sgn : bool)
    (output_filename csv_file template_path font_path : string) (fs : filesystem)
    (path : string) :
  path <> "out.png" ->
  path <> c_str output_filename ->
  (forall data name number info,
     load_data (os libs) fs csv_file = Returned data -> In (name, number, info) data ->
     path <> c_str ("barcode_" +:+ number +:+ ".png")) ->
  files (snd (create_pdf libs sgn output_filename csv_file template_path font_path fs)) !! path
  = fs !! path.
Proof.
  intros Hout Hdoc Hbar.
  destruct (create_pdf_cases libs sgn output_filename csv_file template_path font_path fs)
    as [Hnot|(data & Hnew & Hfont & Hload)].
  - destruct (create_pdf_without_records libs sgn output_filename csv_file template_path
                font_path fs Hnot) as (e & calls & ->). reflexivity.
  - rewrite (create_pdf_files_lookup libs sgn output_filename csv_file template_path
               font_path fs data path Hnew Hfont Hload Hdoc).
    rewrite loop_elsewhere; [reflexivity|exact Hout|].
    intros name number info Hin. now apply (Hbar data name number info).
Qed.

Lemma create_pdf_leaves_other_files_witness :
  files (snd (create_pdf sample_libs true "cards.pdf" csv_path "data/vcard.face.png"
                "data/font.ttf" {[ csv_path := three_record_csv ]})) !! csv_path
  = ({[ csv_path := three_record_csv ]} : filesystem) !! csv_path.
Proof.
  refine (create_pdf_leaves_other_files sample_libs true "cards.pdf" csv_path
            "data/vcard.face.png" "data/font.ttf" {[ csv_path := three_record_csv ]} csv_path
            ltac:(discriminate) ltac:(discriminate) _).
  intros data name number info _ _ H. unfold c_str in H. rewrite append_cons in H.
  simpl extract_until in H. destruct (extract_until "000" _) as [taken after].
  simpl in H. discriminate H.
Defined.

(** X11. When no removal is refused, a run that reaches the records removes,
    for every record, whatever file the system finds under the name
    [barcode_<number>.png], also one that was there before the run and that
    the run never wrote. *)
Theorem create_pdf_removes_barcode_files (libs : Libs) (sgn : bool)
    (output_filename csv_file template_path font_path : string) (fs : filesystem)
    (data : list record) (name number info : string) :
  HPDF_New_ok libs = true ->
  HPDF_GetFont_ok libs (c_str font_path) "UTF-8" = true ->
  load_data (os libs) fs csv_file = Returned data ->
  existsb (removal_refused_for libs) data = false ->
  In (name, number, info) data ->
  c_str ("barcode_" +:+ number +:+ ".png") <> c_str output_filename ->
  files (snd (create_pdf libs sgn output_filename csv_file template_path font_path fs))
    !! c_str ("barcode_" +:+ number +:+ ".png") = None.
Proof.
  intros Hnew Hfont Hload Hok Hin Hdoc.
  rewrite (create_pdf_files_lookup libs sgn output_filename csv_file template_path
             font_path fs data _ Hnew Hfont Hload Hdoc).
  now apply (loop_removes_barcode_files libs sgn data name number info).
Qed.

Lemma create_pdf_removes_barcode_files_witness :
  files (snd (create_pdf sample_libs true "cards.pdf" csv_path "data/vcard.face.png"
                "data/font.ttf"
                {[ csv_path := one_record_csv; "barcode_123456789012.png" := "mine" ]}))
    !! c_str ("barcode_" +:+ "123456789012" +:+ ".png") = None.
Proof.
  exact (create_pdf_removes_barcode_files sample_libs true "cards.pdf" csv_path
           "data/vcard.face.png" "data/font.ttf"
           {[ csv_path := one_record_csv; "barcode_123456789012.png" := "mine" ]}
           [("Ann", "123456789012", "a")] "Ann" "123456789012" "a"
           eq_refl eq_refl eq_refl eq_refl (or_introl eq_refl) ltac:(discriminate)).
Defined.

(** ** Writing records and reading them back *)

Lemma contains_app (d : ascii) (a b : string) :
  contains d (a +:+ b) = contains d a || contains d b.
Proof.
  induction a as [|c a IH]; [reflexivity|].
  rewrite append_cons. simpl. rewrite IH. now rewrite orb_assoc.
Qed.

Lemma plain_field_spec (s : string) :
  plain_field s = true <-> contains comma s = false /\ contains newline s = false.
Proof.
  unfold plain_field. rewrite andb_true_iff, !negb_true_iff. tauto.
Qed.

Lemma plain_record_line (r : record) :
  plain_record r = true ->
  contains newline (join_fields r) = false /\ parse_line (join_fields r) = r.
Proof.
  destruct r as [[name number] info]. unfold plain_record, join_fields.
  rewrite !andb_true_iff, !plain_field_spec. intros [[[Hc1 Hn1] [Hc2 Hn2]] [Hc3 Hn3]]. split.
  - rewrite contains_app, Hn1. change ("," +:+ number +:+ "," +:+ info)
      with (String comma (number +:+ String comma info)).
    cbn [contains orb]. change (Ascii.eqb comma newline) with false. cbn [orb].
    rewrite contains_app, Hn2. exact Hn3.
  - pose proof (parse_line_three_getlines name number info None Hc1 Hc2 Hc3) as H.
    rewrite append_empty_r in H. exact H.
Qed.

Lemma parse_join_records (rs : list record) :
  forallb plain_record rs = true ->
  map parse_line (map join_fields rs) = rs
  /\ Forall (fun l => contains newline l = false) (map join_fields rs).
Proof.
  induction rs as [|r rs IH]; intros Hrs; [split; constructor|].
  simpl in Hrs. apply andb_true_iff in Hrs as [Hr Hrs].
  destruct (IH Hrs) as [Hmap Hall]. destruct (plain_record_line r Hr) as [Hnl Hparse].
  cbn [map]. rewrite Hparse, Hmap. split; [reflexivity|]. now constructor.
Qed.

(** X16. Records whose fields hold neither a comma nor a newline come back
    unchanged: a file made of any header line and then one line
    [name,number,additional_info] per record loads to the same records, in
    the same order. *)
Theorem load_data_reads_back_records (os : Os) (fs : filesystem) (path h : string)
    (rs : list record) :
  contains newline h = false ->
  forallb plain_record rs = true ->
  fs !! c_str path = Some (unlines (h :: map join_fields rs)) ->
  load_data os fs path = Returned rs.
Proof.
  intros Hh Hrs Hfile. destruct (parse_join_records rs Hrs) as [Hmap Hall].
  rewrite (load_data_unlines os fs path h (map join_fields rs) Hh Hall Hfile).
  now rewrite Hmap.
Qed.

Lemma load_data_reads_back_records_witness :
  load_data sample_os
    {[ csv_path := unlines ("name,number,info"
                              :: map join_fields [("Ann Lee", "123456789012", "");
                                                  ("", "4006", " x ")]) ]} csv_path
  = Returned [("Ann Lee", "123456789012", ""); ("", "4006", " x ")].
Proof.
  exact (load_data_reads_back_records sample_os
           {[ csv_path := unlines ("name,number,info"
                                     :: map join_fields [("Ann Lee", "123456789012", "");
                                                         ("", "4006", " x ")]) ]}
           csv_path "name,number,info"
           [("Ann Lee", "123456789012", ""); ("", "4006", " x ")] eq_refl eq_refl eq_refl).
Defined.

(** ** What a run draws *)

Lemma loop_body_calls_without_image (libs : Libs) (sgn : bool) (w : world) (r : record) :
  (let '(name, number, info) := r in
   files w !! c_str ("barcode_" +:+ number +:+ ".png") = None) ->
  hpdf_calls (snd (create_pdf_loop_body libs sgn w r))
  = hpdf_calls w ++ record_calls_without_image r.
Proof.
  destruct r as [[name number] info]. intros Hnone.
  unfold create_pdf_loop_body, record_calls_without_image, load_png.
  rewrite generate_barcode_elsewhere by apply c_str_barcode_filename_not_outfile.
  rewrite Hnone. destruct (remove_refused _ _); cbn [snd hpdf_calls];
    now rewrite <- app_assoc.
Qed.

Lemma loop_calls_without_image (libs : Libs) (sgn : bool) (data : list record) :
  existsb (removal_refused_for libs) data = false ->
  forall w,
    (forall name number info,
       In (name, number, info) data ->
       files w !! c_str ("barcode_" +:+ number +:+ ".png") = None) ->
    hpdf_calls (snd (create_pdf_loop libs sgn data w))
    = hpdf_calls w ++ flat_map record_calls_without_image data.
Proof.
  induction data as [|r data IH]; intros Hok w Hnone.
  - simpl. now rewrite app_nil_r.
  - cbn [existsb] in Hok. apply orb_false_iff in Hok as [Hr Hdata].
    rewrite loop_cons, Hr. cbn [flat_map]. rewrite (IH Hdata).
    + rewrite loop_body_calls_without_image, <- app_assoc; [reflexivity|].
      destruct r as [[name number] info]. apply (Hnone name number info). now left.
    + intros name number info Hin. apply loop_body_absent_stays.
      * apply c_str_barcode_filename_not_outfile.
      * apply (Hnone name number info). now right.
Qed.

(** X12. When no file named after a record's number is there at the start
    and no removal is refused, no barcode ever reaches the page: the run
    makes exactly the set-up calls, then for each record, in file order, the
    four text calls, the load of the file that does not exist and the drawing
    of a null image, then the save and the release. *)
Theorem create_pdf_draws_no_barcode (libs : Libs) (sgn : bool)
    (output_filename csv_file template_path font_path : string) (fs : filesystem)
    (data : list record) :
  HPDF_New_ok libs = true ->
  HPDF_GetFont_ok libs (c_str font_path) "UTF-8" = true ->
  load_data (os libs) fs csv_file = Returned data ->
  existsb (removal_refused_for libs) data = false ->
  (forall name number info,
     In (name, number, info) data ->
     fs !! c_str ("barcode_" +:+ number +:+ ".png") = None) ->
  hpdf_calls (snd (create_pdf libs sgn output_filename csv_file template_path font_path fs))
  = [HPDF_SetCompressionMode; HPDF_UseUTFEncodings; HPDF_SetCurrentEncoder "UTF-8";
     HPDF_GetFont (c_str font_path) "UTF-8"; HPDF_AddPage; HPDF_Page_SetSize]
    ++ flat_map record_calls_without_image data
    ++ [HPDF_SaveToFile (c_str output_filename); HPDF_Free].
Proof.
  intros Hnew Hfont Hload Hok Hnone.
  rewrite (create_pdf_with_records libs sgn output_filename csv_file template_path font_path
             fs data Hnew Hfont Hload).
  set (w0 := {| files := fs; hpdf_calls := _ |}).
  pose proof (proj2 (loop_returned libs sgn data w0) Hok) as Hret.
  pose proof (loop_calls_without_image libs sgn data Hok w0 Hnone) as Hcalls.
  destruct (create_pdf_loop libs sgn data w0) as [o w]. cbn [fst snd] in *. subst o.
  cbn [hpdf_calls]. rewrite Hcalls. unfold w0. cbn [hpdf_calls].
  now rewrite <- app_assoc.
Qed.

Lemma create_pdf_draws_no_barcode_witness :
  hpdf_calls (snd (create_pdf sample_libs true "cards.pdf" csv_path "data/vcard.face.png"
                     "data/font.ttf" {[ csv_path := one_record_csv ]}))
  = [HPDF_SetCompressionMode; HPDF_UseUTFEncodings; HPDF_SetCurrentEncoder "UTF-8";
     HPDF_GetFont (c_str "data/font.ttf") "UTF-8"; HPDF_AddPage; HPDF_Page_SetSize]
    ++ flat_map record_calls_without_image [("Ann", "123456789012", "a")]
    ++ [HPDF_SaveToFile (c_str "cards.pdf"); HPDF_Free].
Proof.
  refine (create_pdf_draws_no_barcode sample_libs true "cards.pdf" csv_path
            "data/vcard.face.png" "data/font.ttf" {[ csv_path := one_record_csv ]}
            [("Ann", "123456789012", "a")] eq_refl eq_refl eq_refl eq_refl _).
  intros name number info [[= <- <- <-]|[]]. reflexivity.
Defined.

Lemma pages_added_app (a b : list hpdf_call) :
  pages_added (a ++ b) = (pages_added a + pages_added b)%nat.
Proof. induction a as [|c a IH]; [reflexivity|]. destruct c; simpl; now rewrite IH. Qed.

Lemma drawn_images_app (a b : list hpdf_call) :
  drawn_images (a ++ b) = drawn_images a ++ drawn_images b.
Proof. induction a as [|c a IH]; [reflexivity|]. destruct c; simpl; now rewrite IH. Qed.

Lemma loop_body_layout (libs : Libs) (sgn : bool) (w : world) (r : record) :
  pages_added (hpdf_calls (snd (create_pdf_loop_body libs sgn w r)))
  = pages_added (hpdf_calls w)
  /\ forallb at_fixed_place (hpdf_calls (snd (create_pdf_loop_body libs sgn w r)))
     = forallb at_fixed_place (hpdf_calls w)
  /\ length (drawn_images (hpdf_calls (snd (create_pdf_loop_body libs sgn w r))))
     = S (length (drawn_images (hpdf_calls w)))
  /\ length (text_outs (hpdf_calls (snd (create_pdf_loop_body libs sgn w r))))
     = S (length (text_outs (hpdf_calls w))).
Proof.
  destruct r as [[name number] info]. unfold create_pdf_loop_body.
  destruct (remove_refused _ _); cbn [snd hpdf_calls];
    rewrite !pages_added_app, !forallb_app, !drawn_images_app, !text_outs_app, !length_app;
    simpl; rewrite !andb_true_r; repeat split; lia.
Qed.

(** Through the loop: the page count and the places do not change; the names
    and the images drawn grow together, by one per record begun. *)
Lemma loop_layout (libs : Libs) (sgn : bool) (data : list record) :
  forall w,
    pages_added (hpdf_calls (snd (create_pdf_loop libs sgn data w)))
    = pages_added (hpdf_calls w)
    /\ forallb at_fixed_place (hpdf_calls (snd (create_pdf_loop libs sgn data w)))
       = forallb at_fixed_place (hpdf_calls w)
    /\ exists k,
         (k <= length data)%nat
         /\ length (drawn_images (hpdf_calls (snd (create_pdf_loop libs sgn data w))))
            = (length (drawn_images (hpdf_calls w)) + k)%nat
         /\ length (text_outs (hpdf_calls (snd (create_pdf_loop libs sgn data w))))
            = (length (text_outs (hpdf_calls w)) + k)%nat
         /\ (existsb (removal_refused_for libs) data = false -> k = length data).
Proof.
  induction data as [|r data IH]; intros w.
  - simpl. repeat split. exists 0%nat. repeat split; lia.
  - destruct (loop_body_layout libs sgn w r) as (Hp & Hf & Hd & Ht).
    rewrite loop_cons. cbn [existsb length]. destruct (removal_refused_for libs r); cbn [snd orb].
    + split; [exact Hp|]. split; [exact Hf|]. exists 1%nat.
      repeat split; try lia; discriminate.
    + destruct (IH (snd (create_pdf_loop_body libs sgn w r))) as (Hp' & Hf' & k & Hk & Hd' & Ht' & Hall).
      split; [congruence|]. split; [congruence|]. exists (S k).
      repeat split; try lia. intros Hok. rewrite (Hall Hok). reflexivity.
Qed.

(** X13. However many records there are and however the loop ends, a run
    that reaches the records adds one page only, draws as many images as
    names and never more than one of each per record, and places every name
    at (50, 750) in size 24 and every image at (50, 700) with size 100 by 50:
    later records are drawn over earlier ones. When no removal is refused,
    every record has its name and its image drawn. *)
Theorem create_pdf_one_page_fixed_places (libs : Libs) (sgn : bool)
    (output_filename csv_file template_path font_path : string) (fs : filesystem)
    (data : list record) :
  HPDF_New_ok libs = true ->
  HPDF_GetFont_ok libs (c_str font_path) "UTF-8" = true ->
  load_data (os libs) fs csv_file = Returned data ->
  let calls :=
    hpdf_calls (snd (create_pdf libs sgn output_filename csv_file template_path font_path fs)) in
  pages_added calls = 1%nat
  /\ forallb at_fixed_place calls = true
  /\ length (drawn_images calls) = length (text_outs calls)
  /\ (length (text_outs calls) <= length data)%nat
  /\ (existsb (removal_refused_for libs) data = false ->
      length (text_outs calls) = length data).
Proof.
  intros Hnew Hfont Hload.
  rewrite (create_pdf_with_records libs sgn output_filename csv_file template_path font_path
             fs data Hnew Hfont Hload).
  set (w0 := {| files := fs; hpdf_calls := _ |}).
  destruct (loop_layout libs sgn data w0) as (Hp & Hf & k & Hk & Hd & Ht & Hall).
  pose proof (loop_outcome libs sgn data w0) as [Hok Hthrow].
  assert (Hlen : forall A (l : list A), length l = length l) by reflexivity.
  destruct (create_pdf_loop libs sgn data w0) as [o w]. cbn [fst snd] in *.
  unfold w0 in Hp, Hf, Hd, Ht. cbn [hpdf_calls] in Hp, Hf, Hd, Ht. simpl in Hp, Hf, Hd, Ht.
  destruct o as [[]|e|]; cbn [snd hpdf_calls].
  - rewrite pages_added_app, forallb_app, drawn_images_app, text_outs_app, !length_app.
    rewrite Hp, Hf, Hd, Ht. simpl. rewrite !Nat.add_0_r.
    repeat split; auto.
  - rewrite Hp, Hf, Hd, Ht. repeat split; auto.
  - destruct (existsb (removal_refused_for libs) data).
    + destruct (Hthrow eq_refl) as [path Hpath]. discriminate.
    + discriminate (Hok eq_refl).
Qed.

Lemma create_pdf_one_page_fixed_places_witness :
  let calls :=
    hpdf_calls (snd (create_pdf sample_libs true "cards.pdf" csv_path "data/vcard.face.png"
                       "data/font.ttf" {[ csv_path := three_record_csv ]})) in
  pages_added calls = 1%nat
  /\ forallb at_fixed_place calls = true
  /\ length (drawn_images calls) = length (text_outs calls)
  /\ (length (text_outs calls) <= 3)%nat
  /\ length (text_outs calls) = 3%nat.
Proof.
  pose proof (create_pdf_one_page_fixed_places sample_libs true "cards.pdf" csv_path
                "data/vcard.face.png" "data/font.ttf" {[ csv_path := three_record_csv ]}
                [("Ann", "123456789012", "a"); ("Bob", "12AB", "b");
                 ("Cid", "400638133393", "c")]
                eq_refl eq_refl eq_refl) as (Hp & Hf & Hd & Hle & Hall).
  exact (conj Hp (conj Hf (conj Hd (conj Hle (Hall eq_refl))))).
Defined.

(** ** [main] *)

(** [main] once document, font and records are there: the status tells
    whether a removal was refused, and beside the document the files are
    those the loop left. *)
Lemma main_with_records (libs : Libs) (sgn : bool) (fs : filesystem) (data : list record) :
  HPDF_New_ok libs = true ->
  HPDF_GetFont_ok libs "data/font.ttf" "UTF-8" = true ->
  load_data (os libs) fs csv_path = Returned data ->
  fst (main libs sgn fs)
  = Returned (if existsb (removal_refused_for libs) data then 1 else 0)
  /\ forall path,
       path <> "cards.pdf" ->
       files (snd (main libs sgn fs)) !! path
       = files (snd (create_pdf_loop libs sgn data
                       {| files := fs;
                          hpdf_calls :=
                            [HPDF_SetCompressionMode; HPDF_UseUTFEncodings;
                             HPDF_SetCurrentEncoder "UTF-8";
                             HPDF_GetFont "data/font.ttf" "UTF-8";
                             HPDF_AddPage; HPDF_Page_SetSize] |})) !! path.
Proof.
  intros Hnew Hfont Hload. unfold main.
  pose proof (create_pdf_with_records libs sgn "cards.pdf" csv_path "data/vcard.face.png"
                "data/font.ttf" fs data Hnew Hfont Hload) as Hrun.
  unfold csv_path in Hrun. rewrite Hrun. clear Hrun.
  change (c_str "data/font.ttf") with "data/font.ttf".
  change (c_str "cards.pdf") with "cards.pdf".
  set (w0 := {| files := fs; hpdf_calls := _ |}).
  pose proof (loop_outcome libs sgn data w0) as [Hok Hthrow].
  destruct (create_pdf_loop libs sgn data w0) as [o w]. cbn [fst snd] in *.
  destruct (existsb (removal_refused_for libs) data).
  - destruct (Hthrow eq_refl) as [path ->]. cbn [fst snd]. auto.
  - rewrite (Hok eq_refl). cbn [fst snd files]. split; [reflexivity|]. intros path Hpath.
    destruct (HPDF_SaveToFile_output libs _) as [bytes|]; [|reflexivity].
    now rewrite lookup_insert_ne by congruence.
Qed.

(** X14. All records share one raster file: when no removal is refused
    before the last record, [out.png] holds at the end of [main] what zint
    printed for the last record, whatever it held before the run and whatever
    the earlier records left there. *)
Theorem main_keeps_last_raster (libs : Libs) (sgn : bool) (fs : filesystem)
    (data : list record) (name number info png : string) :
  HPDF_New_ok libs = true ->
  HPDF_GetFont_ok libs "data/font.ttf" "UTF-8" = true ->
  load_data (os libs) fs csv_path = Returned (data ++ [(name, number, info)]) ->
  existsb (removal_refused_for libs) data = false ->
  ZBarcode_Print_output libs barcode_symbol
    (c_str (number +:+ calculate_check_digit sgn number)) = Some png ->
  files (snd (main libs sgn fs)) !! "out.png" = Some png.
Proof.
  intros Hnew Hfont Hload Hok Hprint.
  destruct (main_with_records libs sgn fs _ Hnew Hfont Hload) as [_ Hfiles].
  rewrite Hfiles by discriminate.
  rewrite (loop_app libs sgn data [(name, number, info)] Hok), loop_cons.
  destruct (removal_refused_for libs (name, number, info)); cbn [snd create_pdf_loop];
    now apply loop_body_leaves_raster.
Qed.

Lemma main_keeps_last_raster_witness :
  files (snd (main sample_libs true {[ csv_path := three_record_csv; "out.png" := "mine" ]}))
    !! "out.png" = Some "PNG 4006381333931".
Proof.
  exact (main_keeps_last_raster sample_libs true
           {[ csv_path := three_record_csv; "out.png" := "mine" ]}
           [("Ann", "123456789012", "a"); ("Bob", "12AB", "b")] "Cid" "400638133393" "c"
           "PNG 4006381333931" eq_refl eq_refl eq_refl eq_refl eq_refl).
Defined.

(** X15. [main] always ends with exit status 0 or 1. The status is 1 exactly
    when the document cannot be created, the font cannot be obtained, the CSV
    file does not open, or the removal of the temporary file of some record
    is refused; in every other case, whatever zint and libharu do on the
    records, it is 0. When one of the first three happens no file has been
    changed. *)
Theorem main_exit_status (libs : Libs) (sgn : bool) (fs : filesystem) :
  (fst (main libs sgn fs) = Returned 0 \/ fst (main libs sgn fs) = Returned 1)
  /\ (fst (main libs sgn fs) = Returned 1
      <-> HPDF_New_ok libs = false
          \/ HPDF_GetFont_ok libs "data/font.ttf" "UTF-8" = false
          \/ open_ifstream (os libs) fs csv_path = None
          \/ exists data,
               load_data (os libs) fs csv_path = Returned data
               /\ existsb (removal_refused_for libs) data = true)
  /\ (HPDF_New_ok libs = false
      \/ HPDF_GetFont_ok libs "data/font.ttf" "UTF-8" = false
      \/ open_ifstream (os libs) fs csv_path = None ->
      files (snd (main libs sgn fs)) = fs).
Proof.
  destruct (create_pdf_cases libs sgn "cards.pdf" csv_path "data/vcard.face.png"
              "data/font.ttf" fs) as [Hnot|(data & Hnew & Hfont & Hload)].
  - destruct (create_pdf_without_records libs sgn "cards.pdf" csv_path "data/vcard.face.png"
                "data/font.ttf" fs Hnot) as (e & calls & Hrun).
    change (c_str "data/font.ttf") with "data/font.ttf" in Hnot.
    unfold main. unfold csv_path in Hrun. rewrite Hrun. cbn [fst snd files].
    split; [auto|]. split; [|auto]. split; [|reflexivity].
    intros _. destruct Hnot as [H|[H|H]]; auto.
  - change (c_str "data/font.ttf") with "data/font.ttf" in Hfont.
    destruct (main_with_records libs sgn fs data Hnew Hfont Hload) as [Hstatus _].
    rewrite Hstatus.
    assert (Hopen : open_ifstream (os libs) fs csv_path <> None).
    { intros Hnone. rewrite (load_data_missing _ _ _ Hnone) in Hload. discriminate. }
    destruct (existsb (removal_refused_for libs) data) eqn:Hrefused.
    + split; [auto|]. split; [|intros [H|[H|H]]; congruence].
      split; [|reflexivity]. intros _. right. right. right. eauto.
    + split; [auto|]. split; [|intros [H|[H|H]]; congruence].
      split; [discriminate|].
      intros [H|[H|[H|(data' & Hload' & Hrefused')]]]; congruence.
Qed.

Lemma main_exit_status_witness :
  fst (main sample_libs true ∅) = Returned 1
  /\ files (snd (main sample_libs true ∅)) = ∅.
Proof.
  pose proof (main_exit_status sample_libs true ∅) as (_ & Hiff & Hfiles).
  assert (Hwhy : HPDF_New_ok sample_libs = false
                 \/ HPDF_GetFont_ok sample_libs "data/font.ttf" "UTF-8" = false
                 \/ open_ifstream (os sample_libs) ∅ csv_path = None)
    by (right; right; reflexivity).
  assert (Hwhy' : HPDF_New_ok sample_libs = false
                  \/ HPDF_GetFont_ok sample_libs "data/font.ttf" "UTF-8" = false
                  \/ open_ifstream (os sample_libs) ∅ csv_path = None
                  \/ exists data,
                       load_data (os sample_libs) ∅ csv_path = Returned data
                       /\ existsb (removal_refused_for sample_libs) data = true)
    by (right; right; left; reflexivity).
  exact (conj (proj2 Hiff Hwhy') (Hfiles Hwhy)).
Defined.

(** A number of 244 bytes makes a file name of 256 bytes: the removal is
    refused in the first iteration and the run ends there, with exit status
    1, the second record never drawn and no document saved. *)
Example long_number_run :
  let number := String.concat "" (repeat "1234567890" 24) +:+ "1234" in
  let fs : filesystem :=
    {[ csv_path := unlines ["name,number,info"; "Bob," +:+ number +:+ ",b";
                            "Ann,123456789012,a"] ]} in
  String.length number = 244%nat
  /\ fst (main sample_libs true fs) = Returned 1
  /\ text_outs (hpdf_calls (snd (main sample_libs true fs))) = ["Bob"]
  /\ files (snd (main sample_libs true fs)) !! "cards.pdf" = None.
Proof. vm_compute. repeat split. Qed.
